(** * The Fledge "python27" filter plugin: a shallow embedding of plugin.cpp

    The plugin entry points [plugin_init], [plugin_ingest],
    [plugin_reconfigure] and [plugin_shutdown] are C++ procedures that act
    on process-wide state: the embedded interpreter, the global
    [pythonInitialised], the heap of [ReadingSet] and [FILTER_INFO]
    objects, and the outside world (logger, asset tracker, the downstream
    output stream).  They are embedded here as computations of a state and
    error monad over a [World] record; every call that leaves the plugin
    is recorded as an [Event] of the world's trace, in program order.

    Heap objects are named by allocation index, which is never reused, so
    that "the same object" and "a new object" are distinguishable.  A
    computation yields [None] where the C++ has undefined behaviour: a
    dangling handle or batch pointer is dereferenced, or the interpreter's
    thread-state API is entered while no interpreter is live. *)

From stdpp Require Import base gmap strings list.

Local Open Scope string_scope.
Local Open Scope list_scope.

(** ** Constants of plugin.cpp *)

Definition PYTHON_FILTERS_PATH : string := "/scripts".
Definition FILTER_NAME : string := "python27".
Definition SCRIPT_CONFIG_ITEM_NAME : string := "script".

(** ** Host data: readings and configuration categories *)

(** The value of one datapoint.  The plugin never looks inside a reading
    except for its asset name; the payload is carried along. *)
Inductive DatapointValue :=
| DPInteger (z : Z)
| DPString (s : string)
| DPArray (zs : list Z).

Record Reading := mkReading {
  assetName : string;
  userTimestamp : string;
  datapoints : list (string * DatapointValue)
}.

(** The items of the category that DEFAULT_CONFIG declares. *)
Record ConfigCategory := mkConfigCategory {
  getName : string;
  item_enable : bool;
  item_config : string;
  item_script : string
}.

(** ** Interpreter objects *)

#[warnings="-register-all"]
Inductive PyObject :=
| PyNone
| PyInt (z : Z)
| PyString (s : string)
| PyList (items : list PyObject)
| PyDict (entries : list (string * PyObject))
| PyModule (name : string).

(** A callable either raises (the text of the exception) or returns. *)
Definition PyCallable : Type := PyObject -> string + PyObject.

(** ** The filter object and the plugin handle *)

Record Python27Filter := mkPython27Filter {
  m_name : string;
  m_config : ConfigCategory;
  m_data : nat;                      (* OUTPUT_HANDLE *)
  m_func : nat;                      (* OUTPUT_STREAM, a function pointer *)
  m_enabled : bool;
  m_pModule : option PyObject;
  m_pFunc : option PyCallable;
  m_pythonScript : string;
  m_filtersPath : string
}.

Record FILTER_INFO := mkFILTER_INFO {
  handle : Python27Filter;
  configCatName : string
}.

(** ** Observable events *)

Inductive Event :=
| EvConfigLock                       (* filter->lock() *)
| EvConfigUnlock                     (* filter->unlock() *)
| EvSetProgramName (name : string)   (* Py_SetProgramName *)
| EvPyInitialize                     (* Py_Initialize *)
| EvInitThreads                      (* PyEval_InitThreads *)
| EvSaveThread                       (* PyEval_SaveThread *)
| EvPyFinalize                       (* Py_Finalize *)
| EvGILEnsure                        (* PyGILState_Ensure *)
| EvGILRelease                       (* PyGILState_Release *)
| EvSysPathInsert (path : string)    (* PyList_Insert(sys.path, 0, path) *)
| EvConfigure                        (* filter->configure() *)
| EvReconfigure (newConfig : string) (* filter->reconfigure(newConfig) *)
| EvCreateReadingsList               (* filter->createReadingsList *)
| EvCallFunction                     (* PyObject_CallFunction(m_pFunc, ..) *)
| EvGetFilteredReadings              (* filter->getFilteredReadings *)
| EvPyClear                          (* Py_CLEAR of an interpreter object *)
| EvErrFetch                         (* the error indicator is read and reset *)
| EvAssetTrack (service asset event : string)
| EvLoggerError (message : string)   (* Logger::getLogger()->error *)
| EvLogErrorMessage (text : string)  (* the text logged by logErrorMessage *)
| EvDeleteReadingSet (p : nat)
| EvNewReadingSet (p : nat)
| EvDeleteFilter (p : nat)
| EvOutput (func data readingSet : nat) (seen : option (list Reading)).

(** ** The process state *)

Record World := mkWorld {
  py_live : bool;                    (* what Py_IsInitialized() answers *)
  pythonInitialised : bool;          (* the global of plugin.cpp *)
  py_error : option string;          (* the interpreter's error indicator *)
  readingSets : gmap nat (list Reading);
  nextReadingSet : nat;
  filterInfos : gmap nat FILTER_INFO;
  nextInfo : nat;
  trace : list Event
}.

Definition set_py_live (b : bool) (w : World) : World :=
  mkWorld b (pythonInitialised w) (py_error w) (readingSets w)
          (nextReadingSet w) (filterInfos w) (nextInfo w) (trace w).

Definition set_pythonInitialised (b : bool) (w : World) : World :=
  mkWorld (py_live w) b (py_error w) (readingSets w)
          (nextReadingSet w) (filterInfos w) (nextInfo w) (trace w).

Definition set_py_error (e : option string) (w : World) : World :=
  mkWorld (py_live w) (pythonInitialised w) e (readingSets w)
          (nextReadingSet w) (filterInfos w) (nextInfo w) (trace w).

Definition set_readingSets (h : gmap nat (list Reading)) (n : nat)
    (w : World) : World :=
  mkWorld (py_live w) (pythonInitialised w) (py_error w) h n
          (filterInfos w) (nextInfo w) (trace w).

Definition set_filterInfos (h : gmap nat FILTER_INFO) (n : nat)
    (w : World) : World :=
  mkWorld (py_live w) (pythonInitialised w) (py_error w) (readingSets w)
          (nextReadingSet w) h n (trace w).

Definition add_event (e : Event) (w : World) : World :=
  mkWorld (py_live w) (pythonInitialised w) (py_error w) (readingSets w)
          (nextReadingSet w) (filterInfos w) (nextInfo w) (trace w ++ [e]).

Definition add_events (es : list Event) (w : World) : World :=
  mkWorld (py_live w) (pythonInitialised w) (py_error w) (readingSets w)
          (nextReadingSet w) (filterInfos w) (nextInfo w) (trace w ++ es).

(** The world of a process that has just started. *)
Definition initial_world : World :=
  mkWorld false false None ∅ 0 ∅ 0 [].

(** ** The monad of plugin code *)

Definition M (A : Type) : Type := World -> option (A * World).

Definition retM {A} (a : A) : M A := fun w => Some (a, w).

Definition bindM {A B} (m : M A) (k : A -> M B) : M B :=
  fun w => match m w with
           | Some (a, w') => k a w'
           | None => None
           end.

Definition undefinedM {A} : M A := fun _ => None.

Definition getM : M World := fun w => Some (w, w).

Definition modifyM (f : World -> World) : M unit := fun w => Some (tt, f w).

Definition emit (e : Event) : M unit := modifyM (add_event e).

Notation "'let!' x ':=' m 'in' k" := (bindM m (fun x => k))
  (at level 10, x name, m at level 100, k at level 200, only parsing).
Notation "'run!' m 'in' k" := (bindM m (fun _ => k))
  (at level 10, m at level 100, k at level 200, only parsing).

(** ** Primitives: the interpreter *)

Definition Py_IsInitialized : M bool := fun w => Some (py_live w, w).

Definition Py_Initialize : M unit :=
  run! modifyM (set_py_live true) in emit EvPyInitialize.

Definition Py_Finalize : M unit :=
  run! modifyM (set_py_live false) in emit EvPyFinalize.

(** The thread-state API may only be entered while an interpreter is
    live; entering it otherwise is undefined. *)
Definition PyGILState_Ensure : M unit :=
  let! live := Py_IsInitialized in
  if live then emit EvGILEnsure else undefinedM.

Definition PyGILState_Release : M unit := emit EvGILRelease.

Definition Py_CLEAR : M unit := emit EvPyClear.

(** [PyObject_CallFunction(callable, "O", arg)].  A null callable makes
    the call fail with the interpreter's "null argument" error; a callable
    that raises leaves the exception in the error indicator and the call
    returns null. *)
Definition call_result (callable : option PyCallable) (arg : PyObject)
    : string + PyObject :=
  match callable with
  | None => inl "null argument to internal routine"
  | Some f => f arg
  end.

Definition PyObject_CallFunction (callable : option PyCallable)
    (arg : PyObject) : M (option PyObject) :=
  run! emit EvCallFunction in
  match call_result callable arg with
  | inl text => run! modifyM (set_py_error (Some text)) in retM None
  | inr result => retM (Some result)
  end.

(** ** Primitives: the host *)

Definition Logger_error (message : string) : M unit :=
  emit (EvLoggerError message).

Definition addAssetTrackingTuple (service asset event : string) : M unit :=
  emit (EvAssetTrack service asset event).

(** [((ReadingSet * )readingSet)->getAllReadings()] dereferences the batch. *)
Definition getAllReadings (readingSet : nat) : M (list Reading) :=
  fun w => match readingSets w !! readingSet with
           | Some rs => Some (rs, w)
           | None => None
           end.

(** [delete (ReadingSet * )readingSet]: the object and its readings die. *)
Definition delete_ReadingSet (readingSet : nat) : M unit :=
  fun w => match readingSets w !! readingSet with
           | Some _ =>
               Some (tt, add_event (EvDeleteReadingSet readingSet)
                           (set_readingSets (delete readingSet (readingSets w))
                                            (nextReadingSet w) w))
           | None => None
           end.

(** [new ReadingSet(newReadings)]: a new object, never an old name. *)
Definition new_ReadingSet (newReadings : list Reading) : M nat :=
  fun w =>
    let p := nextReadingSet w in
    Some (p, add_event (EvNewReadingSet p)
               (set_readingSets (<[p := newReadings]> (readingSets w)) (S p) w)).

(** [filter->m_func(filter->m_data, readingSet)]: the downstream stage is
    handed the pointer, and what it finds behind it is recorded. *)
Definition call_output (filter : Python27Filter) (readingSet : nat) : M unit :=
  fun w => Some (tt, add_event (EvOutput (m_func filter) (m_data filter)
                                  readingSet (readingSets w !! readingSet)) w).

(** The handle is a pointer to a [FILTER_INFO]. *)
Definition deref_info (h : nat) : M FILTER_INFO :=
  fun w => match filterInfos w !! h with
           | Some info => Some (info, w)
           | None => None
           end.

Definition store_filter (h : nat) (f : Python27Filter) : M unit :=
  fun w => match filterInfos w !! h with
           | Some info =>
               Some (tt, set_filterInfos
                           (<[h := mkFILTER_INFO f (configCatName info)]>
                              (filterInfos w)) (nextInfo w) w)
           | None => None
           end.

(** The loop of plugin_ingest over a vector of readings. *)
Fixpoint track_readings (service : string) (readings : list Reading) : M unit :=
  match readings with
  | [] => retM tt
  | elem :: rest =>
      run! addAssetTrackingTuple service (assetName elem) "Filter" in
      track_readings service rest
  end.

(** ** The class [Python27Filter]

    plugin.cpp includes python27.h and calls methods of the class
    declared there; neither the header nor the class's implementation is
    among the sources.  The methods whose result decides a branch of the
    plugin are taken as an interface, with any implementation; the small
    ones the spec describes are modelled from it. *)

(** Each method is a function of the filter object and its arguments;
    what a method may itself write to the log is not part of the model. *)
Class Python27FilterImpl := {
  (** [getDataDir()] of the host's utils.h *)
  getDataDir : string;
  (** [bool Python27Filter::configure()]: import the script and bind its
      two entry points *)
  configure : Python27Filter -> bool * Python27Filter;
  (** [bool Python27Filter::reconfigure(const string&)] *)
  reconfigure : string -> Python27Filter -> bool * Python27Filter;
  (** [PyObject* Python27Filter::createReadingsList(const vector<Reading*>&)],
      null when a reading cannot be represented *)
  createReadingsList : Python27Filter -> list Reading -> option PyObject;
  (** [vector<Reading*>* Python27Filter::getFilteredReadings(PyObject* )],
      null when the value is not a well-formed list of readings *)
  getFilteredReadings : Python27Filter -> PyObject -> option (list Reading)
}.

(** Modelled from the spec: the constructor of [Python27Filter] and of its
    base class is missing; the spec has the filter enabled or not at
    construction as the [enable] item says, and no script bound yet. *)
Definition new_Python27Filter (name : string) (config : ConfigCategory)
    (outHandle output : nat) : Python27Filter :=
  mkPython27Filter name config outHandle output (item_enable config)
                   None None "" "".

(** Modelled from the spec: [isEnabled] is missing; it reads the enabled
    flag of the filter. *)
Definition isEnabled (f : Python27Filter) : bool := m_enabled f.

(** Modelled from the spec: [disableFilter] is missing; it forces the
    filter into the Disabled state. *)
Definition disableFilter (f : Python27Filter) : unit * Python27Filter :=
  (tt, mkPython27Filter (m_name f) (m_config f) (m_data f) (m_func f) false
         (m_pModule f) (m_pFunc f) (m_pythonScript f) (m_filtersPath f)).

(** Modelled from the spec: [setFiltersPath] is missing; the scripts
    directory is the host's data directory followed by the fixed relative
    path. *)
Definition setFiltersPath (dataDir : string) (f : Python27Filter)
    : unit * Python27Filter :=
  (tt, mkPython27Filter (m_name f) (m_config f) (m_data f) (m_func f)
         (m_enabled f) (m_pModule f) (m_pFunc f) (m_pythonScript f)
         (dataDir +:+ PYTHON_FILTERS_PATH)).

(** Modelled from the spec: [setScriptName] is missing; it takes the bare
    script name from the [script] item and returns false, without
    throwing, if the name is empty. *)
Definition setScriptName (f : Python27Filter) : bool * Python27Filter :=
  let name := item_script (m_config f) in
  (negb (String.eqb name ""),
   mkPython27Filter (m_name f) (m_config f) (m_data f) (m_func f)
     (m_enabled f) (m_pModule f) (m_pFunc f) name (m_filtersPath f)).

(** [Py_CLEAR(filter->m_pModule)] and [Py_CLEAR(filter->m_pFunc)] *)
Definition clear_pModule (f : Python27Filter) : unit * Python27Filter :=
  (tt, mkPython27Filter (m_name f) (m_config f) (m_data f) (m_func f)
         (m_enabled f) None (m_pFunc f) (m_pythonScript f) (m_filtersPath f)).

Definition clear_pFunc (f : Python27Filter) : unit * Python27Filter :=
  (tt, mkPython27Filter (m_name f) (m_config f) (m_data f) (m_func f)
         (m_enabled f) (m_pModule f) None (m_pythonScript f) (m_filtersPath f)).

(** Modelled from the spec: [logErrorMessage] is missing; the text of the
    pending interpreter exception is captured, logged, and the error
    indicator reset. *)
Definition logErrorMessage (f : Python27Filter) : M unit :=
  let! w := getM in
  run! emit EvErrFetch in
  run! emit (EvLogErrorMessage
               (match py_error w with
                | Some text => text
                | None => "no error description."
                end)) in
  modifyM (set_py_error None).

(** A method call through the handle: the object behind it is updated. *)
Definition call_filter {A} (h : nat)
    (method : Python27Filter -> A * Python27Filter) : M A :=
  let! info := deref_info h in
  let r := method (handle info) in
  run! store_filter h (snd r) in
  retM (fst r).

(** [new FILTER_INFO] with its [new Python27Filter]. *)
Definition new_FILTER_INFO (info : FILTER_INFO) : M nat :=
  fun w =>
    let h := nextInfo w in
    Some (h, set_filterInfos (<[h := info]> (filterInfos w)) (S h) w).

(** [delete filter; delete info;] *)
Definition delete_FILTER_INFO (h : nat) : M unit :=
  fun w => match filterInfos w !! h with
           | Some _ =>
               Some (tt, add_event (EvDeleteFilter h)
                           (set_filterInfos (delete h (filterInfos w))
                                            (nextInfo w) w))
           | None => None
           end.

(** The two messages plugin_ingest hands to the logger. *)
Definition ingest_error_message (filter : Python27Filter) (what : string)
    : string :=
  "Filter '" +:+ FILTER_NAME +:+ "' (" +:+ getName (m_config filter)
  +:+ "), script '" +:+ m_pythonScript filter +:+ "', " +:+ what
  +:+ ", action: " +:+ "pass unfiltered data onwards".

(** ** The plugin entry points *)

Section Plugin.
Context `{Impl : Python27FilterImpl}.

(** The filter object as plugin_init has it when it calls [configure]:
    constructed, given its scripts directory and its script name. *)
Definition filter_at_configure (config : ConfigCategory)
    (outHandle output : nat) : Python27Filter :=
  snd (setScriptName
         (snd (setFiltersPath getDataDir
                 (new_Python27Filter FILTER_NAME config outHandle output)))).

(** Whether a script name is configured: what [setScriptName] answers. *)
Definition has_script (config : ConfigCategory) : bool :=
  negb (String.eqb (item_script config) "").

(** Whether [configure] succeeds on the filter plugin_init hands it. *)
Definition configure_succeeds (config : ConfigCategory)
    (outHandle output : nat) : bool :=
  fst (configure (filter_at_configure config outHandle output)).

(** plugin_init aborts the pipeline set up when a script is named and
    cannot be configured. *)
Definition init_aborts (config : ConfigCategory) (outHandle output : nat)
    : bool :=
  has_script config && negb (configure_succeeds config outHandle output).

(** The filter object plugin_init leaves behind the new handle. *)
Definition filter_after_init (config : ConfigCategory)
    (outHandle output : nat) : Python27Filter :=
  if has_script config
  then snd (configure (filter_at_configure config outHandle output))
  else snd (disableFilter (filter_at_configure config outHandle output)).

(** plugin.cpp, lines 120-188 *)
Definition plugin_init (config : ConfigCategory) (outHandle output : nat)
    : M (option nat) :=
  let! info :=
    new_FILTER_INFO
      (mkFILTER_INFO (new_Python27Filter FILTER_NAME config outHandle output)
                     (getName config)) in
  (* Embedded Python 2.7 program name *)
  run! emit (EvSetProgramName (getName config)) in
  (* Embedded Python 2.7 initialisation *)
  let! live := Py_IsInitialized in
  run! (if negb live then
          run! Py_Initialize in
          run! emit EvInitThreads in
          run! emit EvSaveThread in
          modifyM (set_pythonInitialised true)
        else retM tt) in
  (* Pass Fledge Data dir *)
  run! call_filter info (setFiltersPath getDataDir) in
  run! PyGILState_Ensure in
  (* Set Python path for embedded Python 2.7 *)
  let! pyFilter := deref_info info in
  run! emit (EvSysPathInsert (m_filtersPath (handle pyFilter))) in
  run! Py_CLEAR in
  (* Check first we have a Python script to load *)
  let! named := call_filter info setScriptName in
  if negb named then
    (* Force disable *)
    run! call_filter info disableFilter in
    run! PyGILState_Release in
    retM (Some info)
  else
    (* Configure filter *)
    run! emit EvConfigure in
    let! configured := call_filter info configure in
    if negb configured then
      let! w := getM in
      run! (if pythonInitialised w
            then modifyM (set_pythonInitialised false)
            else retM tt) in
      run! PyGILState_Release in
      (* This will abort the filter pipeline set up *)
      retM None
    else
      run! PyGILState_Release in
      retM (Some info).

(** plugin.cpp, lines 284-311: the branch that handles the value the
    script returned. *)
Definition use_filtered_readings (info : FILTER_INFO) (readingSet : nat)
    (newReadings : option (list Reading)) : M nat :=
  match newReadings with
  | Some nr =>
      (* Filter success: delete input data as we have a new set *)
      run! delete_ReadingSet readingSet in
      let! finalData := new_ReadingSet nr in
      let! readings2 := getAllReadings finalData in
      run! track_readings (configCatName info) readings2 in
      retM finalData
  | None =>
      (* Filtered data error: use current reading set *)
      retM readingSet
  end.

(** plugin.cpp, lines 199-321 *)
Definition plugin_ingest (h : nat) (readingSet : nat) : M unit :=
  let! info := deref_info h in
  let filter := handle info in
  (* Protect against reconfiguration *)
  run! emit EvConfigLock in
  let enabled := isEnabled filter in
  run! emit EvConfigUnlock in
  if negb (isEnabled filter) then
    (* Current filter is not active: just pass the readings set *)
    call_output filter readingSet
  else
    (* Get all the readings in the readingset *)
    let! readings := getAllReadings readingSet in
    run! track_readings (configCatName info) readings in
    run! PyGILState_Ensure in
    (* - 1 - Create Python list of dicts as input to the filter *)
    run! emit EvCreateReadingsList in
    match createReadingsList filter readings with
    | None =>
        run! Logger_error
               (ingest_error_message filter "create filter data error") in
        (* Pass data set to next filter and return *)
        run! call_output filter readingSet in
        PyGILState_Release
    | Some readingsList =>
        (* - 2 - Call Python method passing an object *)
        let! pReturn := PyObject_CallFunction (m_pFunc filter) readingsList in
        (* Free filter input data *)
        run! Py_CLEAR in
        (* - 3 - Handle filter returned data *)
        let! finalData :=
          match pReturn with
          | None =>
              run! Logger_error
                     (ingest_error_message filter "filter error") in
              run! logErrorMessage filter in
              (* Filter did nothing: just pass input data *)
              retM readingSet
          | Some ret =>
              run! emit EvGetFilteredReadings in
              let! finalData :=
                use_filtered_readings info readingSet
                  (getFilteredReadings filter ret) in
              (* Remove pReturn object *)
              run! Py_CLEAR in
              retM finalData
          end in
        run! PyGILState_Release in
        (* - 4 - Pass (new or old) data set to next filter *)
        call_output filter finalData
    end.

(** plugin.cpp, lines 326-349 *)
Definition plugin_shutdown (h : nat) : M unit :=
  run! deref_info h in
  run! PyGILState_Ensure in
  (* Decrement pModule reference count *)
  run! call_filter h clear_pModule in
  run! Py_CLEAR in
  (* Decrement pFunc reference count *)
  run! call_filter h clear_pFunc in
  run! Py_CLEAR in
  (* Cleanup Python 2.7 *)
  let! w := getM in
  run! (if pythonInitialised w then
          run! modifyM (set_pythonInitialised false) in
          Py_Finalize
        else retM tt) in
  (* Free plugin handle object *)
  delete_FILTER_INFO h.

(** plugin.cpp, lines 357-366 *)
Definition plugin_reconfigure (h : nat) (newConfig : string) : M unit :=
  run! deref_info h in
  run! PyGILState_Ensure in
  run! emit (EvReconfigure newConfig) in
  run! call_filter h (reconfigure newConfig) in
  PyGILState_Release.

(** The path a call of plugin_ingest takes, by the conditions the code
    branches on, in the order it tests them (lines 210, 239, 266, 286). *)
Inductive IngestPath :=
| PathDisabled
| PathMarshalFailure
| PathInvocationFailure (text : string)
| PathMarshalBackFailure
| PathSuccess (newReadings : list Reading).

Definition ingest_path (filter : Python27Filter) (readings : list Reading)
    : IngestPath :=
  if negb (isEnabled filter) then PathDisabled
  else match createReadingsList filter readings with
       | None => PathMarshalFailure
       | Some readingsList =>
           match call_result (m_pFunc filter) readingsList with
           | inl text => PathInvocationFailure text
           | inr ret =>
               match getFilteredReadings filter ret with
               | None => PathMarshalBackFailure
               | Some newReadings => PathSuccess newReadings
               end
           end
       end.

(** ** What the host does with the plugin *)

Inductive HostCall :=
| CallInit (config : ConfigCategory) (outHandle output : nat)
| CallIngest (h readingSet : nat)
| CallReconfigure (h : nat) (newConfig : string)
| CallShutdown (h : nat)
| HostNewReadingSet (readings : list Reading).

Definition host_call (c : HostCall) : M unit :=
  match c with
  | CallInit config outHandle output =>
      run! plugin_init config outHandle output in retM tt
  | CallIngest h readingSet => plugin_ingest h readingSet
  | CallReconfigure h newConfig => plugin_reconfigure h newConfig
  | CallShutdown h => plugin_shutdown h
  | HostNewReadingSet readings => run! new_ReadingSet readings in retM tt
  end.

Fixpoint host_calls (cs : list HostCall) : M unit :=
  match cs with
  | [] => retM tt
  | c :: rest => run! host_call c in host_calls rest
  end.

End Plugin.

(** ** Reading a trace *)

Definition is_output (e : Event) : bool :=
  match e with EvOutput _ _ _ _ => true | _ => false end.

Definition is_log (e : Event) : bool :=
  match e with
  | EvLoggerError _ | EvLogErrorMessage _ => true
  | _ => false
  end.

Definition is_finalize (e : Event) : bool :=
  match e with EvPyFinalize => true | _ => false end.

Definition is_delete (e : Event) : bool :=
  match e with EvDeleteReadingSet _ => true | _ => false end.

(** The calls that enter the interpreter or touch one of its objects. *)
Definition is_interpreter_touch (e : Event) : bool :=
  match e with
  | EvSetProgramName _ | EvPyInitialize | EvInitThreads | EvSaveThread
  | EvPyFinalize | EvGILEnsure | EvGILRelease | EvSysPathInsert _
  | EvConfigure | EvReconfigure _ | EvCreateReadingsList | EvCallFunction
  | EvGetFilteredReadings | EvPyClear | EvErrFetch => true
  | _ => false
  end.

(** The asset-tracking tuples of a trace, in order. *)
Definition tracked (t : list Event) : list (string * string * string) :=
  omap (fun e => match e with
                 | EvAssetTrack s a ev => Some (s, a, ev)
                 | _ => None
                 end) t.

(** The events of one pass of the tracking loop over a batch. *)
Definition track_events (service : string) (readings : list Reading)
    : list Event :=
  map (fun r => EvAssetTrack service (assetName r) "Filter") readings.

(** The tuples one pass of the tracking loop records for a batch. *)
Definition tuples_of (service : string) (readings : list Reading)
    : list (string * string * string) :=
  map (fun r => (service, assetName r, "Filter")) readings.

(** The batches handed downstream, in order. *)
Definition outputs (t : list Event) : list (nat * option (list Reading)) :=
  omap (fun e => match e with
                 | EvOutput _ _ p seen => Some (p, seen)
                 | _ => None
                 end) t.

(** ** Predicates on the lifecycle of the interpreter *)

(** Between two worlds the interpreter stayed as live as it was, the
    global [pythonInitialised] stayed as it was, and [Py_Finalize] was
    not called. *)
Definition lifecycle_kept (w w' : World) : Prop :=
  py_live w' = py_live w
  /\ pythonInitialised w' = pythonInitialised w
  /\ List.filter is_finalize (trace w') = List.filter is_finalize (trace w).

(** A computation is quiet when it keeps the lifecycle wherever it is
    defined. *)
Definition quiet {A} (m : M A) : Prop :=
  forall w a w', m w = Some (a, w') -> lifecycle_kept w w'.

(** The state in which no shutdown can finalize: the interpreter is live
    and the flag that would make a shutdown finalize it is clear. *)
Definition orphaned (w : World) : Prop :=
  py_live w = true /\ pythonInitialised w = false.

(** ** The allocator of batches *)

(** No batch lives under a name the allocator has yet to hand out. *)
Definition names_fresh (w : World) : Prop :=
  forall q, nextReadingSet w <= q -> readingSets w !! q = None.

Definition keeps_fresh {A} (m : M A) : Prop :=
  forall w a w', names_fresh w -> m w = Some (a, w') -> names_fresh w'.

(** ** A concrete implementation of the interface

    One implementation of the missing methods, used to run the plugin on
    concrete inputs.  Marshalling follows the shape the spec gives: a list
    with one mapping per reading, keyed by the asset name, holding the
    readings and the timestamp; an array-valued datapoint has no
    representation. *)

Module Demo.

Definition datapoint_to_py (d : string * DatapointValue)
    : option (string * PyObject) :=
  match snd d with
  | DPInteger z => Some (fst d, PyInt z)
  | DPString s => Some (fst d, PyString s)
  | DPArray _ => None
  end.

Definition reading_to_py (r : Reading) : option PyObject :=
  dps ← mapM datapoint_to_py (datapoints r);
  Some (PyDict [(assetName r,
                 PyDict [("readings", PyDict dps);
                         ("timestamp", PyString (userTimestamp r))])]).

Definition py_to_datapoint (e : string * PyObject)
    : option (string * DatapointValue) :=
  match snd e with
  | PyInt z => Some (fst e, DPInteger z)
  | PyString s => Some (fst e, DPString s)
  | _ => None
  end.

Definition py_to_reading (o : PyObject) : option Reading :=
  match o with
  | PyDict [(asset, PyDict [("readings", PyDict dps);
                            ("timestamp", PyString ts)])] =>
      dps' ← mapM py_to_datapoint dps;
      Some (mkReading asset ts dps')
  | _ => None
  end.

(** The scripts of the demo: the callable bound for a script name. *)
Definition script_named (name : string) : PyCallable :=
  if String.eqb name "raises" then
    fun _ => inl "ZeroDivisionError('integer division or modulo by zero',)"
  else if String.eqb name "garbage" then
    fun _ => inr (PyString "not a list")
  else if String.eqb name "drop_first" then
    fun arg => match arg with
               | PyList (_ :: rest) => inr (PyList rest)
               | other => inr other
               end
  else fun arg => inr arg.

(** Binding fails for the script called "broken". *)
Definition demo_configure (f : Python27Filter) : bool * Python27Filter :=
  if String.eqb (m_pythonScript f) "broken" then (false, f)
  else (true,
        mkPython27Filter (m_name f) (m_config f) (m_data f) (m_func f)
          (m_enabled f) (Some (PyModule (m_pythonScript f)))
          (Some (script_named (m_pythonScript f)))
          (m_pythonScript f) (m_filtersPath f)).

#[local] Instance demo_impl : Python27FilterImpl := {|
  getDataDir := "/usr/local/fledge/data";
  configure := demo_configure;
  reconfigure := fun _ f => (true, f);
  createReadingsList := fun _ rs => PyList <$> mapM reading_to_py rs;
  getFilteredReadings := fun _ o =>
    match o with
    | PyList items => mapM py_to_reading items
    | _ => None
    end
|}.

Definition config_of (enable : bool) (script : string) : ConfigCategory :=
  mkConfigCategory "py27" enable "{}" script.

Definition sensorA : Reading :=
  mkReading "sensorA" "2024-01-01 00:00:00.000000+00:00"
            [("temperature", DPInteger 21)].

Definition sensorB : Reading :=
  mkReading "sensorB" "2024-01-01 00:00:01.000000+00:00"
            [("humidity", DPInteger 40)].

Definition nested : Reading :=
  mkReading "sensorC" "2024-01-01 00:00:02.000000+00:00"
            [("spectrum", DPArray [1; 2; 3]%Z)].

(** The world after the host has started one filter on [script] and
    allocated one batch: the handle is 0 and the batch is 0. *)
Definition started (enable : bool) (script : string)
    (batch : list Reading) : option World :=
  snd <$> host_calls [CallInit (config_of enable script) 7 9;
                      HostNewReadingSet batch] initial_world.

Definition world_of (o : option World) : World := default initial_world o.

(** The object behind a live handle. *)
Definition info_at (w : World) (h : nat) : FILTER_INFO :=
  default (mkFILTER_INFO (new_Python27Filter "" (config_of false "") 0 0) "")
          (filterInfos w !! h).

(** Reachable worlds: one filter, handle 0, and one batch, pointer 0. *)
Definition w_disabled : World :=
  Eval vm_compute in world_of (started false "identity" [sensorA; sensorB]).

Definition w_identity : World :=
  Eval vm_compute in world_of (started true "identity" [sensorA; sensorB]).

Definition w_drop_first : World :=
  Eval vm_compute in world_of (started true "drop_first" [sensorA; sensorB]).

Definition w_raises : World :=
  Eval vm_compute in world_of (started true "raises" [sensorA; sensorB]).

Definition w_garbage : World :=
  Eval vm_compute in world_of (started true "garbage" [sensorA; sensorB]).

Definition w_nested : World :=
  Eval vm_compute in world_of (started true "identity" [sensorA; nested]).

(** Two filters in one process, handles 0 and 1, both on the identity
    script: the first initialized the interpreter, the second found it
    live. *)
Definition w_two_filters : World :=
  Eval vm_compute in
    world_of (snd <$> host_calls [CallInit (config_of true "identity") 7 9;
                                  CallInit (config_of true "identity") 8 9]
                                 initial_world).

End Demo.

(** ** Scanning a trace

    A property of the order of the calls the plugin makes is read off a
    trace by a scanner: a state, stepped by each event, that fails where
    the property is broken. *)

Fixpoint scan {S : Type} (step : S -> Event -> option S) (s : S)
    (t : list Event) : option S :=
  match t with
  | [] => Some s
  | e :: rest =>
      match step s e with
      | Some s' => scan step s' rest
      | None => None
      end
  end.

(** Wherever [m] is defined, the events it appends take the scanner from
    [s] to [s']. *)
Definition scans {S A : Type} (step : S -> Event -> option S)
    (s : S) (m : M A) (s' : S) : Prop :=
  forall w a w',
    m w = Some (a, w') ->
    exists es, trace w' = trace w ++ es /\ scan step s es = Some s'.

(** The calls that create, read or release interpreter objects, and so
    need the global interpreter lock. *)
Definition needs_gil (e : Event) : bool :=
  match e with
  | EvSysPathInsert _ | EvConfigure | EvReconfigure _
  | EvCreateReadingsList | EvCallFunction | EvGetFilteredReadings
  | EvPyClear | EvErrFetch => true
  | _ => false
  end.

(** The lock, counted: PyGILState_Ensure and PyEval_InitThreads acquire
    it, PyGILState_Release and PyEval_SaveThread release it; a release
    needs an acquisition before it, and so does every call that needs the
    lock. *)
Definition gil_step (depth : nat) (e : Event) : option nat :=
  match e with
  | EvGILEnsure | EvInitThreads => Some (S depth)
  | EvGILRelease | EvSaveThread =>
      match depth with
      | 0 => None
      | S d => Some d
      end
  | _ =>
      if needs_gil e
      then match depth with
           | 0 => None
           | S _ => Some depth
           end
      else Some depth
  end.

(** The events of a kind, counted. *)
Definition count_step (P : Event -> bool) (n : nat) (e : Event)
    : option nat :=
  Some (if P e then S n else n).

(** The interpreter's lifecycle: it is initialized only while it is not
    live and finalized only while it is. *)
Definition lifecycle_step (live : bool) (e : Event) : option bool :=
  match e with
  | EvPyInitialize => if live then None else Some true
  | EvPyFinalize => if live then Some false else None
  | _ => Some live
  end.

Definition is_track (e : Event) : bool :=
  match e with EvAssetTrack _ _ _ => true | _ => false end.

Definition is_initialize (e : Event) : bool :=
  match e with EvPyInitialize => true | _ => false end.

Definition is_sys_path_insert (e : Event) : bool :=
  match e with EvSysPathInsert _ => true | _ => false end.

Definition is_configure (e : Event) : bool :=
  match e with EvConfigure => true | _ => false end.

Definition is_ingest_call (c : HostCall) : bool :=
  match c with CallIngest _ _ => true | _ => false end.

Definition is_shutdown_call (c : HostCall) : bool :=
  match c with CallShutdown _ => true | _ => false end.

Definition is_init_call (c : HostCall) : bool :=
  match c with CallInit _ _ _ => true | _ => false end.

(** Wherever [m] is defined it leaves a part of the world as it was. *)
Definition frames {X A : Type} (part : World -> X) (m : M A) : Prop :=
  forall w a w', m w = Some (a, w') -> part w' = part w.

(** The filter objects and the state of the interpreter's lifecycle. *)
Definition instances_and_lifecycle (w : World)
    : gmap nat FILTER_INFO * nat * bool * bool :=
  (filterInfos w, nextInfo w, py_live w, pythonInitialised w).

(** The heap of batches. *)
Definition batches (w : World) : gmap nat (list Reading) * nat :=
  (readingSets w, nextReadingSet w).

Section PluginEvents.
Context `{Impl : Python27FilterImpl}.

(** The calls plugin_init makes, in order (lines 133-187). *)
Definition init_events (w : World) (config : ConfigCategory) : list Event :=
  [EvSetProgramName (getName config)]
  ++ (if py_live w then []
      else [EvPyInitialize; EvInitThreads; EvSaveThread])
  ++ [EvGILEnsure;
      EvSysPathInsert (getDataDir +:+ PYTHON_FILTERS_PATH);
      EvPyClear]
  ++ (if has_script config then [EvConfigure] else [])
  ++ [EvGILRelease].

End PluginEvents.

(** The calls plugin_shutdown makes, in order (lines 331-348). *)
Definition shutdown_events (w : World) (h : nat) : list Event :=
  [EvGILEnsure; EvPyClear; EvPyClear]
  ++ (if pythonInitialised w then [EvPyFinalize] else [])
  ++ [EvDeleteFilter h].

(** The addresses at which a [FILTER_INFO] is allocated. *)
Definition handles (w : World) : gset nat := dom (filterInfos w).

(** The interpreter's lifecycle is well bracketed and the flag is set
    only while the interpreter is live. *)
Definition lifecycle_sound (w : World) : Prop :=
  scan lifecycle_step false (trace w) = Some (py_live w)
  /\ (pythonInitialised w = true -> py_live w = true).

(** The lock, counted as by [gil_step], with the count noted at each call
    of the output stream. *)
Definition sink_depth_step (s : nat * list nat) (e : Event)
    : option (nat * list nat) :=
  let '(depth, noted) := s in
  match e with
  | EvOutput _ _ _ _ => Some (depth, noted ++ [depth])
  | _ =>
      match gil_step depth e with
      | Some depth' => Some (depth', noted)
      | None => None
      end
  end.

(** No filter object lives at an address the allocator of handles has yet
    to hand out. *)
Definition handles_fresh (w : World) : Prop :=
  forall k, nextInfo w <= k -> k ∉ handles w.

(** The handles and their allocator. *)
Definition handle_space (w : World) : gset nat * nat :=
  (handles w, nextInfo w).

(** ** A session of the host, for running the plugin *)

Module Session.
Import Demo.

(** One filter on the identity script is started and fed a batch, its
    configuration is changed, and a second filter with no script is
    started and shut down. *)
Definition calls : list HostCall :=
  [CallInit (config_of true "identity") 7 9;
   HostNewReadingSet [sensorA; sensorB];
   CallIngest 0 0;
   CallReconfigure 0 "{}";
   CallInit (config_of false "") 8 9;
   CallShutdown 1].

Definition w_end : World :=
  Eval vm_compute in
    world_of (snd <$> host_calls (Impl := demo_impl) calls initial_world).

(** An enabled filter whose script drops the only reading of its batch. *)
Definition w_drop_all : World :=
  Eval vm_compute in world_of (started true "drop_first" [sensorA]).

End Session.

(** ** Running the monad *)

Lemma bindM_Some {A B} (m : M A) (k : A -> M B) w a w' :
  m w = Some (a, w') -> bindM m k w = k a w'.
Proof. intros Hm. unfold bindM. now rewrite Hm. Qed.

Lemma bindM_emit {B} (e : Event) (k : unit -> M B) w :
  bindM (emit e) k w = k tt (add_event e w).
Proof. reflexivity. Qed.

(** Worlds are kept in the form [set_.. (add_events es w)]: unfolding the
    setters inside one another copies the world once per field. *)
Lemma bindM_modifyM {B} (f : World -> World) (k : unit -> M B) w :
  bindM (modifyM f) k w = k tt (f w).
Proof. reflexivity. Qed.

Lemma bindM_retM {A B} (a : A) (k : A -> M B) w :
  bindM (retM a) k w = k a w.
Proof. reflexivity. Qed.

Lemma bindM_assoc {A B C} (m : M A) (k : A -> M B) (k' : B -> M C) w :
  bindM (bindM m k) k' w = bindM m (fun a => bindM (k a) k') w.
Proof. unfold bindM. destruct (m w) as [[a w']|]; reflexivity. Qed.

Lemma add_event_events e w : add_event e w = add_events [e] w.
Proof. reflexivity. Qed.

Lemma add_events_app es1 es2 w :
  add_events es2 (add_events es1 w) = add_events (es1 ++ es2) w.
Proof. unfold add_events; simpl. now rewrite app_assoc. Qed.

Lemma add_events_nil w : add_events [] w = w.
Proof. destruct w. unfold add_events; simpl. now rewrite app_nil_r. Qed.

(** The setters commute; they are ordered with the heaps outermost and
    the trace innermost. *)
Lemma add_events_set_filterInfos es m n w :
  add_events es (set_filterInfos m n w) = set_filterInfos m n (add_events es w).
Proof. reflexivity. Qed.

Lemma add_events_set_readingSets es m n w :
  add_events es (set_readingSets m n w) = set_readingSets m n (add_events es w).
Proof. reflexivity. Qed.

Lemma add_events_set_py_error es e w :
  add_events es (set_py_error e w) = set_py_error e (add_events es w).
Proof. reflexivity. Qed.

Lemma add_events_set_pythonInitialised es b w :
  add_events es (set_pythonInitialised b w) = set_pythonInitialised b (add_events es w).
Proof. reflexivity. Qed.

Lemma add_events_set_py_live es b w :
  add_events es (set_py_live b w) = set_py_live b (add_events es w).
Proof. reflexivity. Qed.

Lemma set_readingSets_set_filterInfos m1 n1 m2 n2 w :
  set_readingSets m2 n2 (set_filterInfos m1 n1 w) = set_filterInfos m1 n1 (set_readingSets m2 n2 w).
Proof. reflexivity. Qed.

Lemma set_py_error_set_filterInfos m1 n1 e2 w :
  set_py_error e2 (set_filterInfos m1 n1 w) = set_filterInfos m1 n1 (set_py_error e2 w).
Proof. reflexivity. Qed.

Lemma set_pythonInitialised_set_filterInfos m1 n1 b2 w :
  set_pythonInitialised b2 (set_filterInfos m1 n1 w) = set_filterInfos m1 n1 (set_pythonInitialised b2 w).
Proof. reflexivity. Qed.

Lemma set_py_live_set_filterInfos m1 n1 b2 w :
  set_py_live b2 (set_filterInfos m1 n1 w) = set_filterInfos m1 n1 (set_py_live b2 w).
Proof. reflexivity. Qed.

Lemma set_py_error_set_readingSets m1 n1 e2 w :
  set_py_error e2 (set_readingSets m1 n1 w) = set_readingSets m1 n1 (set_py_error e2 w).
Proof. reflexivity. Qed.

Lemma set_pythonInitialised_set_readingSets m1 n1 b2 w :
  set_pythonInitialised b2 (set_readingSets m1 n1 w) = set_readingSets m1 n1 (set_pythonInitialised b2 w).
Proof. reflexivity. Qed.

Lemma set_py_live_set_readingSets m1 n1 b2 w :
  set_py_live b2 (set_readingSets m1 n1 w) = set_readingSets m1 n1 (set_py_live b2 w).
Proof. reflexivity. Qed.

Lemma set_pythonInitialised_set_py_error e1 b2 w :
  set_pythonInitialised b2 (set_py_error e1 w) = set_py_error e1 (set_pythonInitialised b2 w).
Proof. reflexivity. Qed.

Lemma set_py_live_set_py_error e1 b2 w :
  set_py_live b2 (set_py_error e1 w) = set_py_error e1 (set_py_live b2 w).
Proof. reflexivity. Qed.

Lemma set_py_live_set_pythonInitialised b1 b2 w :
  set_py_live b2 (set_pythonInitialised b1 w) = set_pythonInitialised b1 (set_py_live b2 w).
Proof. reflexivity. Qed.

Lemma set_filterInfos_twice m1 n1 m2 n2 w :
  set_filterInfos m2 n2 (set_filterInfos m1 n1 w) = set_filterInfos m2 n2 w.
Proof. reflexivity. Qed.

Lemma set_readingSets_twice m1 n1 m2 n2 w :
  set_readingSets m2 n2 (set_readingSets m1 n1 w) = set_readingSets m2 n2 w.
Proof. reflexivity. Qed.

Lemma set_py_error_twice e1 e2 w :
  set_py_error e2 (set_py_error e1 w) = set_py_error e2 w.
Proof. reflexivity. Qed.

Lemma set_pythonInitialised_twice b1 b2 w :
  set_pythonInitialised b2 (set_pythonInitialised b1 w) = set_pythonInitialised b2 w.
Proof. reflexivity. Qed.

Lemma set_py_live_twice b1 b2 w :
  set_py_live b2 (set_py_live b1 w) = set_py_live b2 w.
Proof. reflexivity. Qed.

Create Rewrite HintDb world.

#[local] Hint Rewrite add_event_events add_events_app
  add_events_set_filterInfos add_events_set_readingSets
  add_events_set_py_error add_events_set_pythonInitialised
  add_events_set_py_live set_readingSets_set_filterInfos
  set_py_error_set_filterInfos set_pythonInitialised_set_filterInfos
  set_py_live_set_filterInfos set_py_error_set_readingSets
  set_pythonInitialised_set_readingSets set_py_live_set_readingSets
  set_pythonInitialised_set_py_error set_py_live_set_py_error
  set_py_live_set_pythonInitialised set_filterInfos_twice
  set_readingSets_twice set_py_error_twice set_pythonInitialised_twice
  set_py_live_twice : world.

(** One step of a computation: a primitive that only writes is run and
    the world brought back into form. *)
Ltac bind_norm := repeat (rewrite bindM_assoc || rewrite bindM_retM).

Ltac step_emit := bind_norm; rewrite bindM_emit; autorewrite with world.

Lemma track_readings_run service readings w :
  track_readings service readings w
  = Some (tt, add_events (track_events service readings) w).
Proof.
  revert w. induction readings as [|r rs IH]; intros w; simpl.
  - unfold retM, add_events; simpl. rewrite app_nil_r. now destruct w.
  - unfold addAssetTrackingTuple. rewrite bindM_emit, IH.
    rewrite add_event_events, add_events_app. reflexivity.
Qed.

Lemma GILEnsure_run w :
  py_live w = true -> PyGILState_Ensure w = Some (tt, add_event EvGILEnsure w).
Proof.
  intros Hl. unfold PyGILState_Ensure, Py_IsInitialized, bindM.
  now rewrite Hl.
Qed.

Lemma getAllReadings_run p rs w :
  readingSets w !! p = Some rs -> getAllReadings p w = Some (rs, w).
Proof. intros Hp. unfold getAllReadings. now rewrite Hp. Qed.

Lemma deref_info_run h info w :
  filterInfos w !! h = Some info -> deref_info h w = Some (info, w).
Proof. intros Hh. unfold deref_info. now rewrite Hh. Qed.

Lemma delete_ReadingSet_run p rs w :
  readingSets w !! p = Some rs ->
  delete_ReadingSet p w
  = Some (tt, add_event (EvDeleteReadingSet p)
                (set_readingSets (delete p (readingSets w))
                                 (nextReadingSet w) w)).
Proof. intros Hp. unfold delete_ReadingSet. now rewrite Hp. Qed.

Lemma new_ReadingSet_run newReadings w :
  new_ReadingSet newReadings w
  = Some (nextReadingSet w,
          add_event (EvNewReadingSet (nextReadingSet w))
            (set_readingSets (<[nextReadingSet w := newReadings]> (readingSets w))
                             (S (nextReadingSet w)) w)).
Proof. reflexivity. Qed.

Lemma logErrorMessage_run f w :
  logErrorMessage f w
  = Some (tt, set_py_error None
                (add_events
                   [EvErrFetch;
                    EvLogErrorMessage (match py_error w with
                                       | Some text => text
                                       | None => "no error description."
                                       end)] w)).
Proof.
  unfold logErrorMessage, bindM, getM, emit, modifyM, set_py_error,
    add_events, add_event; simpl.
  now rewrite <- app_assoc.
Qed.

Lemma tracked_app t1 t2 : tracked (t1 ++ t2) = tracked t1 ++ tracked t2.
Proof. unfold tracked. apply omap_app. Qed.

Lemma tracked_track_events service readings :
  tracked (track_events service readings) = tuples_of service readings.
Proof.
  induction readings as [|r rs IH]; simpl; [reflexivity|].
  unfold tracked in *. simpl. now rewrite IH.
Qed.

Lemma outputs_app t1 t2 : outputs (t1 ++ t2) = outputs t1 ++ outputs t2.
Proof. unfold outputs. apply omap_app. Qed.

Lemma outputs_track_events service readings :
  outputs (track_events service readings) = [].
Proof. induction readings as [|r rs IH]; simpl; [reflexivity|exact IH]. Qed.

Lemma filter_track_events (P : Event -> bool) service readings :
  (forall s a e, P (EvAssetTrack s a e) = false) ->
  List.filter P (track_events service readings) = [].
Proof.
  intros HP. induction readings as [|r rs IH]; simpl; [reflexivity|].
  now rewrite HP.
Qed.

Lemma in_track_events e service readings :
  In e (track_events service readings) ->
  exists r, e = EvAssetTrack service (assetName r) "Filter".
Proof.
  unfold track_events. intros Hin. apply in_map_iff in Hin.
  destruct Hin as (r & Hr & _). now exists r.
Qed.

(** ** The five paths through plugin_ingest *)

Section IngestPaths.
Context `{Impl : Python27FilterImpl}.
Variables (w : World) (h readingSet : nat) (info : FILTER_INFO).
Hypothesis Hinfo : filterInfos w !! h = Some info.

Local Abbreviation filter := (handle info).
Local Abbreviation sink := (EvOutput (m_func filter) (m_data filter)).

Lemma ingest_disabled :
  isEnabled filter = false ->
  plugin_ingest h readingSet w
  = Some (tt, add_events [EvConfigLock; EvConfigUnlock;
                          sink readingSet (readingSets w !! readingSet)] w).
Proof.
  intros Hoff. unfold plugin_ingest, bindM at 1, deref_info.
  rewrite Hinfo. rewrite Hoff. simpl negb. cbv iota.
  do 2 step_emit. unfold call_output. cbn [readingSets add_events].
  now autorewrite with world.
Qed.

Section Enabled.
Variable readings : list Reading.
Hypothesis Hon : isEnabled filter = true.
Hypothesis Hlive : py_live w = true.
Hypothesis Hbatch : readingSets w !! readingSet = Some readings.

Local Abbreviation prologue :=
  ([EvConfigLock; EvConfigUnlock]
   ++ track_events (configCatName info) readings
   ++ [EvGILEnsure; EvCreateReadingsList]).

(** Every enabled call starts the same way: the handle and the batch are
    dereferenced, the input readings tracked, the lock taken and the
    marshaller entered. *)
Ltac ingest_enter :=
  unfold plugin_ingest;
  rewrite (bindM_Some _ _ _ _ _ (deref_info_run _ _ _ Hinfo));
  cbv zeta; rewrite Hon; simpl negb; cbv iota;
  do 2 step_emit;
  erewrite (bindM_Some (getAllReadings readingSet))
    by (apply getAllReadings_run; exact Hbatch);
  rewrite (bindM_Some _ _ _ _ _ (track_readings_run _ _ _));
  erewrite (bindM_Some PyGILState_Ensure)
    by (apply GILEnsure_run; exact Hlive);
  step_emit.

Lemma ingest_marshal_failure :
  createReadingsList filter readings = None ->
  plugin_ingest h readingSet w
  = Some (tt, add_events
                (prologue
                 ++ [EvLoggerError
                       (ingest_error_message filter "create filter data error");
                     sink readingSet (Some readings); EvGILRelease]) w).
Proof.
  intros Hnull. ingest_enter. rewrite Hnull.
  unfold Logger_error. step_emit.
  unfold bindM, call_output, PyGILState_Release, emit, modifyM.
  cbn [readingSets add_events]. rewrite Hbatch.
  autorewrite with world.
  rewrite <- !app_assoc. reflexivity.
Qed.

Lemma ingest_call_failure readingsList text :
  createReadingsList filter readings = Some readingsList ->
  call_result (m_pFunc filter) readingsList = inl text ->
  plugin_ingest h readingSet w
  = Some (tt, set_py_error None
                (add_events
                   (prologue
                    ++ [EvCallFunction; EvPyClear;
                        EvLoggerError
                          (ingest_error_message filter "filter error");
                        EvErrFetch; EvLogErrorMessage text; EvGILRelease;
                        sink readingSet (Some readings)]) w)).
Proof.
  intros Hlist Hraise. ingest_enter. rewrite Hlist.
  unfold PyObject_CallFunction. step_emit.
  rewrite Hraise. bind_norm. rewrite bindM_modifyM. bind_norm.
  unfold Py_CLEAR, Logger_error. step_emit.
  step_emit.
  bind_norm.
  rewrite (bindM_Some _ _ _ _ _ (logErrorMessage_run _ _)).
  cbn [py_error set_py_error add_events]. autorewrite with world.
  bind_norm. unfold PyGILState_Release. step_emit.
  unfold call_output. cbn [readingSets set_py_error add_events].
  rewrite Hbatch. autorewrite with world.
  rewrite <- !app_assoc. reflexivity.
Qed.

Lemma ingest_unmarshal_failure readingsList ret :
  createReadingsList filter readings = Some readingsList ->
  call_result (m_pFunc filter) readingsList = inr ret ->
  getFilteredReadings filter ret = None ->
  plugin_ingest h readingSet w
  = Some (tt, add_events
                (prologue
                 ++ [EvCallFunction; EvPyClear; EvGetFilteredReadings;
                     EvPyClear; EvGILRelease;
                     sink readingSet (Some readings)]) w).
Proof.
  intros Hlist Hret Hback. ingest_enter. rewrite Hlist.
  unfold PyObject_CallFunction. step_emit.
  rewrite Hret. bind_norm.
  unfold Py_CLEAR. step_emit.
  step_emit. rewrite Hback.
  unfold use_filtered_readings. step_emit. bind_norm.
  unfold PyGILState_Release. step_emit.
  unfold call_output. cbn [readingSets add_events].
  rewrite Hbatch. autorewrite with world.
  rewrite <- !app_assoc. reflexivity.
Qed.

Lemma ingest_success readingsList ret newReadings :
  createReadingsList filter readings = Some readingsList ->
  call_result (m_pFunc filter) readingsList = inr ret ->
  getFilteredReadings filter ret = Some newReadings ->
  plugin_ingest h readingSet w
  = Some (tt, set_readingSets
                (<[nextReadingSet w := newReadings]>
                   (delete readingSet (readingSets w)))
                (S (nextReadingSet w))
                (add_events
                   (prologue
                    ++ [EvCallFunction; EvPyClear; EvGetFilteredReadings;
                        EvDeleteReadingSet readingSet;
                        EvNewReadingSet (nextReadingSet w)]
                    ++ track_events (configCatName info) newReadings
                    ++ [EvPyClear; EvGILRelease;
                        sink (nextReadingSet w) (Some newReadings)]) w)).
Proof.
  intros Hlist Hret Hback. ingest_enter. rewrite Hlist.
  unfold PyObject_CallFunction. step_emit.
  rewrite Hret. bind_norm.
  unfold Py_CLEAR. step_emit.
  step_emit. rewrite Hback.
  unfold use_filtered_readings. bind_norm.
  erewrite (bindM_Some (delete_ReadingSet readingSet))
    by (apply delete_ReadingSet_run with (rs := readings); exact Hbatch).
  cbn [readingSets nextReadingSet add_events]. autorewrite with world.
  bind_norm. rewrite (bindM_Some _ _ _ _ _ (new_ReadingSet_run _ _)).
  cbn [readingSets nextReadingSet set_readingSets add_events].
  autorewrite with world. bind_norm.
  erewrite (bindM_Some (getAllReadings _))
    by (apply getAllReadings_run; cbn [readingSets set_readingSets];
        apply lookup_insert_eq).
  cbv beta. bind_norm.
  rewrite (bindM_Some _ _ _ _ _ (track_readings_run _ _ _)).
  autorewrite with world. step_emit. bind_norm.
  unfold PyGILState_Release. step_emit.
  unfold call_output. cbn [readingSets set_readingSets].
  rewrite lookup_insert_eq. autorewrite with world.
  rewrite <- !app_assoc. reflexivity.
Qed.

End Enabled.
End IngestPaths.

(** ** Properties of plugin_ingest *)

Section IngestProperties.
Context `{Impl : Python27FilterImpl}.

(** The state a path lemma gives is read off: its fields by projection,
    its events by splitting the trace where the path lemma appends. *)
Ltac read_world :=
  cbn [trace readingSets py_error nextReadingSet
       set_py_error set_readingSets add_events].

(** The path lemma that fits the facts at hand. *)
Ltac run_path :=
  first [ eapply ingest_disabled; eassumption
        | eapply ingest_marshal_failure; eassumption
        | eapply ingest_call_failure; eassumption
        | eapply ingest_unmarshal_failure; eassumption
        | eapply ingest_success; eassumption ].

Ltac read_events :=
  rewrite ?outputs_app, ?outputs_track_events,
    ?tracked_app, ?tracked_track_events,
    ?List.filter_app, ?filter_track_events by reflexivity;
  cbn [outputs tracked omap list_omap List.filter app
       is_log is_delete is_output is_interpreter_touch].

(** C7. For every batch, if the filter is Disabled when ingest is called,
    the very same batch object is forwarded to the downstream sink: the
    same pointer, behind which the sink finds what the caller left there,
    records, order and content untouched; and no interpreter operation of
    any kind is performed during the call.  The only change to the process
    is the trace, which gains the configuration lock, its release and the
    one output call. *)
Theorem C7_disabled_forwards_same_object
    (w : World) (h readingSet : nat) (info : FILTER_INFO) :
  filterInfos w !! h = Some info ->
  isEnabled (handle info) = false ->
  exists es,
    plugin_ingest h readingSet w = Some (tt, add_events es w)
    /\ outputs es = [(readingSet, readingSets w !! readingSet)]
    /\ List.filter is_interpreter_touch es = []
    /\ List.filter is_delete es = []
    /\ tracked es = [].
Proof.
  intros Hinfo Hoff. eexists. split.
  - apply (ingest_disabled w h readingSet info Hinfo Hoff).
  - repeat split; reflexivity.
Qed.

(** C1. For every ingest call in the Enabled state, if the bound script's
    filter function raises (the interpreter call returns no result
    object), the original input batch object is forwarded unchanged to the
    downstream sink, the interpreter error text is captured and logged,
    and the input batch is not destroyed. *)
Theorem C1_script_raises_forwards_original
    (w : World) (h readingSet : nat) (info : FILTER_INFO)
    (readings : list Reading) (readingsList : PyObject) (text : string) :
  filterInfos w !! h = Some info ->
  isEnabled (handle info) = true ->
  py_live w = true ->
  readingSets w !! readingSet = Some readings ->
  createReadingsList (handle info) readings = Some readingsList ->
  call_result (m_pFunc (handle info)) readingsList = inl text ->
  exists es w',
    plugin_ingest h readingSet w = Some (tt, w')
    /\ trace w' = trace w ++ es
    /\ outputs es = [(readingSet, Some readings)]
    /\ readingSets w' = readingSets w
    /\ List.filter is_delete es = []
    /\ List.filter is_log es
       = [EvLoggerError (ingest_error_message (handle info) "filter error");
          EvLogErrorMessage text]
    /\ In EvErrFetch es
    /\ py_error w' = None.
Proof.
  intros Hinfo Hon Hlive Hbatch Hlist Hraise.
  do 2 eexists. split.
  - apply (ingest_call_failure w h readingSet info Hinfo readings
             Hon Hlive Hbatch readingsList text Hlist Hraise).
  - read_world. split; [reflexivity|].
    read_events.
    repeat split; try reflexivity.
    repeat (rewrite ?in_app_iff; simpl). tauto.
Qed.

(** C4. For every ingest call in the Enabled state whose batch contains a
    record that cannot be converted to the interpreter's native
    representation (marshal-in returns the failure sentinel), the whole
    batch fails to marshal, exactly one error is logged, and the original
    batch object is forwarded downstream unchanged.  The script is not
    called. *)
Theorem C4_marshal_failure_forwards_original
    (w : World) (h readingSet : nat) (info : FILTER_INFO)
    (readings : list Reading) :
  filterInfos w !! h = Some info ->
  isEnabled (handle info) = true ->
  py_live w = true ->
  readingSets w !! readingSet = Some readings ->
  createReadingsList (handle info) readings = None ->
  exists es,
    plugin_ingest h readingSet w = Some (tt, add_events es w)
    /\ outputs es = [(readingSet, Some readings)]
    /\ List.filter is_log es
       = [EvLoggerError
            (ingest_error_message (handle info) "create filter data error")]
    /\ List.filter is_delete es = []
    /\ ~ In EvCallFunction es.
Proof.
  intros Hinfo Hon Hlive Hbatch Hnull. eexists. split.
  - apply (ingest_marshal_failure w h readingSet info Hinfo readings
             Hon Hlive Hbatch Hnull).
  - read_events.
    repeat split; try reflexivity.
    intros Hin. repeat (rewrite ?in_app_iff in Hin; simpl in Hin).
    destruct Hin as [Hin|[Hin|Hin]]; try discriminate.
    destruct Hin as [[Hin|Hin]|Hin]; [|intuition discriminate..].
    apply in_track_events in Hin as [r Hr]. discriminate.
Qed.

(** C5, where the code falls short of it.  For every ingest call where
    the script invocation succeeds but the returned value cannot be
    converted back into a record batch, the original input batch is
    forwarded downstream unchanged and is not destroyed; but unlike the
    two sibling failure paths, which each hand an error to the logger
    before they fall back, this path of plugin_ingest logs nothing: the
    passthrough is silent. *)
Theorem C5_marshal_back_failure_forwards_original_silently
    (w : World) (h readingSet : nat) (info : FILTER_INFO)
    (readings : list Reading) (readingsList ret : PyObject) :
  filterInfos w !! h = Some info ->
  isEnabled (handle info) = true ->
  py_live w = true ->
  readingSets w !! readingSet = Some readings ->
  createReadingsList (handle info) readings = Some readingsList ->
  call_result (m_pFunc (handle info)) readingsList = inr ret ->
  getFilteredReadings (handle info) ret = None ->
  exists es,
    plugin_ingest h readingSet w = Some (tt, add_events es w)
    /\ outputs es = [(readingSet, Some readings)]
    /\ List.filter is_delete es = []
    /\ List.filter is_log es = [].
Proof.
  intros Hinfo Hon Hlive Hbatch Hlist Hret Hback. eexists. split.
  - apply (ingest_unmarshal_failure w h readingSet info Hinfo readings
             Hon Hlive Hbatch readingsList ret Hlist Hret Hback).
  - read_events. repeat split; reflexivity.
Qed.

(** C6. For every ingest call where invocation and marshal-back both
    succeed, the original input batch object is destroyed, a newly
    constructed batch built from the script's output is forwarded
    downstream, and never are both the original and the replacement (or a
    mix of original and copied records) forwarded: the sink is called
    once, with a pointer that named no object before the call and behind
    which it finds exactly the readings marshalled back.  The allocator's
    next name is assumed unused, as it is in every world the host can
    reach. *)
Theorem C6_success_replaces_batch
    (w : World) (h readingSet : nat) (info : FILTER_INFO)
    (readings newReadings : list Reading) (readingsList ret : PyObject) :
  filterInfos w !! h = Some info ->
  isEnabled (handle info) = true ->
  py_live w = true ->
  readingSets w !! readingSet = Some readings ->
  readingSets w !! nextReadingSet w = None ->
  createReadingsList (handle info) readings = Some readingsList ->
  call_result (m_pFunc (handle info)) readingsList = inr ret ->
  getFilteredReadings (handle info) ret = Some newReadings ->
  exists es w',
    plugin_ingest h readingSet w = Some (tt, w')
    /\ trace w' = trace w ++ es
    /\ List.filter is_delete es = [EvDeleteReadingSet readingSet]
    /\ readingSets w' !! readingSet = None
    /\ outputs es = [(nextReadingSet w, Some newReadings)]
    /\ nextReadingSet w <> readingSet
    /\ readingSets w' !! nextReadingSet w = Some newReadings.
Proof.
  intros Hinfo Hon Hlive Hbatch Hfresh Hlist Hret Hback.
  assert (Hne : nextReadingSet w <> readingSet) by congruence.
  do 2 eexists. split.
  - apply (ingest_success w h readingSet info Hinfo readings
             Hon Hlive Hbatch readingsList ret newReadings Hlist Hret Hback).
  - read_world. split; [reflexivity|].
    read_events.
    repeat split; try reflexivity; try assumption.
    + rewrite lookup_insert_ne by assumption. apply lookup_delete_eq.
    + apply lookup_insert_eq.
Qed.

(** C10. Every call to plugin_ingest invokes the downstream output
    function exactly once: with the original batch on the disabled,
    marshal-in-failure, invocation-failure and marshal-back-failure paths,
    or with the replacement batch on the success path; no path drops the
    batch or forwards a batch more than once.  The call is assumed
    defined: the handle and the batch pointer are live and, where the
    filter is enabled (and so enters the interpreter), so is the
    interpreter. *)
Theorem C10_output_called_exactly_once
    (w : World) (h readingSet : nat) (info : FILTER_INFO)
    (readings : list Reading) :
  filterInfos w !! h = Some info ->
  readingSets w !! readingSet = Some readings ->
  (isEnabled (handle info) = true -> py_live w = true) ->
  exists es w',
    plugin_ingest h readingSet w = Some (tt, w')
    /\ trace w' = trace w ++ es
    /\ outputs es
       = [match ingest_path (handle info) readings with
          | PathSuccess newReadings => (nextReadingSet w, Some newReadings)
          | _ => (readingSet, Some readings)
          end]
    /\ match ingest_path (handle info) readings with
       | PathSuccess newReadings =>
           List.filter is_delete es = [EvDeleteReadingSet readingSet]
       | _ => List.filter is_delete es = []
              /\ readingSets w' = readingSets w
       end.
Proof.
  intros Hinfo Hbatch Hlive. unfold ingest_path.
  destruct (isEnabled (handle info)) eqn:Hen; cbn [negb]; cbv iota.
  - specialize (Hlive eq_refl).
    destruct (createReadingsList (handle info) readings)
      as [readingsList|] eqn:Hlist;
      [destruct (call_result (m_pFunc (handle info)) readingsList)
         as [text|ret] eqn:Hcall;
       [|destruct (getFilteredReadings (handle info) ret)
           as [newReadings|] eqn:Hback]|].
    all: do 2 eexists; (split; [run_path|]).
    all: read_world; (split; [reflexivity|]); read_events.
    all: repeat split; reflexivity.
  - do 2 eexists. split; [run_path|].
    read_world. rewrite Hbatch. repeat split; reflexivity.
Qed.

(** C3, as amended.  For every batch forwarded downstream by ingest in the
    Enabled state, whether the original batch (any failure fallback) or a
    newly constructed replacement batch, every record of the forwarded
    batch has had its asset name recorded as an asset-tracking tuple for
    this filter stage by exactly one pass of the tracking loop over that
    batch during the call; on the success path the tuples of the input
    batch, which is destroyed, were recorded before them.  In the Disabled
    state the batch is forwarded and no tuple is recorded. *)
Theorem C3_forwarded_records_tracked_when_enabled
    (w : World) (h readingSet : nat) (info : FILTER_INFO)
    (readings : list Reading) :
  filterInfos w !! h = Some info ->
  readingSets w !! readingSet = Some readings ->
  (isEnabled (handle info) = true -> py_live w = true) ->
  exists es w' p forwarded,
    plugin_ingest h readingSet w = Some (tt, w')
    /\ trace w' = trace w ++ es
    /\ outputs es = [(p, Some forwarded)]
    /\ tracked es
       = match ingest_path (handle info) readings with
         | PathDisabled => []
         | PathSuccess _ =>
             tuples_of (configCatName info) readings
             ++ tuples_of (configCatName info) forwarded
         | _ => tuples_of (configCatName info) forwarded
         end.
Proof.
  intros Hinfo Hbatch Hlive. unfold ingest_path.
  destruct (isEnabled (handle info)) eqn:Hen; cbn [negb]; cbv iota.
  - specialize (Hlive eq_refl).
    destruct (createReadingsList (handle info) readings)
      as [readingsList|] eqn:Hlist;
      [destruct (call_result (m_pFunc (handle info)) readingsList)
         as [text|ret] eqn:Hcall;
       [|destruct (getFilteredReadings (handle info) ret)
           as [newReadings|] eqn:Hback]|].
    all: do 4 eexists; (split; [run_path|]).
    all: read_world; (split; [reflexivity|]); read_events.
    all: split; [reflexivity|]; now rewrite ?app_nil_r.
  - do 4 eexists. split; [run_path|].
    read_world. rewrite Hbatch. repeat split; reflexivity.
Qed.

End IngestProperties.

(** ** plugin_init and plugin_shutdown on an arbitrary world *)

Section Lifecycle.
Context `{Impl : Python27FilterImpl}.

Lemma call_filter_run {A} (method : Python27Filter -> A * Python27Filter)
    w h info :
  filterInfos w !! h = Some info ->
  call_filter h method w
  = Some (fst (method (handle info)),
          set_filterInfos
            (<[h := mkFILTER_INFO (snd (method (handle info)))
                                  (configCatName info)]> (filterInfos w))
            (nextInfo w) w).
Proof.
  intros Hinfo. unfold call_filter, bindM, deref_info, store_filter, retM.
  now rewrite Hinfo, Hinfo.
Qed.

Lemma new_FILTER_INFO_run info w :
  new_FILTER_INFO info w
  = Some (nextInfo w,
          set_filterInfos (<[nextInfo w := info]> (filterInfos w))
                          (S (nextInfo w)) w).
Proof. reflexivity. Qed.

Lemma Py_IsInitialized_run w : Py_IsInitialized w = Some (py_live w, w).
Proof. reflexivity. Qed.

Lemma getM_run w : getM w = Some (w, w).
Proof. reflexivity. Qed.

(** Projections of a world in form. *)
Ltac read_fields :=
  cbn [py_live pythonInitialised py_error readingSets nextReadingSet
       filterInfos nextInfo trace
       set_py_live set_pythonInitialised set_py_error set_readingSets
       set_filterInfos add_events].

(** A method call on the handle just allocated or just updated. *)
Ltac step_method :=
  bind_norm;
  erewrite (bindM_Some (call_filter _ _))
    by (apply call_filter_run; read_fields; apply lookup_insert_eq);
  cbv beta; read_fields;
  rewrite ?set_filterInfos_twice, ?insert_insert_eq;
  cbn [handle configCatName fst snd].

Lemma setScriptName_named config outHandle output :
  fst (setScriptName
         (snd (setFiltersPath getDataDir
                 (new_Python27Filter FILTER_NAME config outHandle output))))
  = has_script config.
Proof. reflexivity. Qed.

(** The first half of plugin_init, up to the test of the script name. *)
Ltac init_enter Hlive :=
  unfold plugin_init;
  rewrite (bindM_Some _ _ _ _ _ (new_FILTER_INFO_run _ _));
  step_emit;
  bind_norm; rewrite (bindM_Some _ _ _ _ _ (Py_IsInitialized_run _));
  read_fields; rewrite Hlive; simpl negb; cbv iota;
  unfold Py_Initialize;
  repeat first [ step_emit | bind_norm; rewrite bindM_modifyM ];
  autorewrite with world;
  step_method;
  bind_norm;
  erewrite (bindM_Some PyGILState_Ensure)
    by (apply GILEnsure_run; read_fields; first [exact Hlive | reflexivity]);
  autorewrite with world;
  erewrite (bindM_Some (deref_info _))
    by (apply deref_info_run; read_fields; apply lookup_insert_eq);
  cbv beta; cbn [handle configCatName];
  step_emit; unfold Py_CLEAR; step_emit;
  step_method;
  rewrite setScriptName_named;
  match goal with
  | |- context [new_Python27Filter FILTER_NAME ?c ?o ?u] =>
      fold (filter_at_configure c o u)
  end.

(** The second half, once the cases are known. *)
Ltac init_run Hlive Hnamed Hconf Hflag :=
  init_enter Hlive; rewrite Hnamed; cbn [negb]; cbv iota;
  try (step_emit; step_method; rewrite Hconf; cbn [fst snd negb]; cbv iota);
  try step_method;
  try (bind_norm; rewrite (bindM_Some _ _ _ _ _ (getM_run _));
       read_fields; rewrite ?Hflag; cbv iota;
       try (bind_norm; rewrite bindM_modifyM));
  autorewrite with world;
  unfold PyGILState_Release; step_emit; reflexivity.

(** What one call of plugin_init does to any world.  The call is always
    defined: it brings up the interpreter itself if need be. *)
Lemma plugin_init_run w config outHandle output :
  exists w' es,
    plugin_init config outHandle output w
    = Some (if init_aborts config outHandle output
            then None else Some (nextInfo w), w')
    /\ trace w' = trace w ++ es
    /\ List.filter is_finalize es = []
    /\ (In EvPyInitialize es <-> py_live w = false)
    /\ py_live w' = true
    /\ pythonInitialised w'
       = (if init_aborts config outHandle output then false
          else if py_live w then pythonInitialised w else true)
    /\ filterInfos w'
       = <[nextInfo w := mkFILTER_INFO
                           (filter_after_init config outHandle output)
                           (getName config)]> (filterInfos w)
    /\ nextInfo w' = S (nextInfo w)
    /\ readingSets w' = readingSets w
    /\ nextReadingSet w' = nextReadingSet w.
Proof.
  unfold init_aborts, filter_after_init, configure_succeeds.
  destruct (py_live w) eqn:Hlive;
    destruct (has_script config) eqn:Hnamed;
    destruct (configure (filter_at_configure config outHandle output))
      as [configured f'] eqn:Hconf;
    destruct configured;
    destruct (pythonInitialised w) eqn:Hflag;
    cbn [fst snd negb andb]; cbv iota;
    do 2 eexists; (split; [init_run Hlive Hnamed Hconf Hflag|]);
    read_fields.
  all: split; [reflexivity|].
  all: repeat split; try reflexivity; try discriminate.
  all: repeat (rewrite ?in_app_iff; simpl); intuition discriminate.
Qed.

(** What one call of plugin_shutdown does to any world in which the
    handle is live and so is the interpreter. *)
Lemma plugin_shutdown_run w h info :
  filterInfos w !! h = Some info ->
  py_live w = true ->
  exists w' es,
    plugin_shutdown h w = Some (tt, w')
    /\ trace w' = trace w ++ es
    /\ List.filter is_finalize es
       = (if pythonInitialised w then [EvPyFinalize] else [])
    /\ py_live w' = negb (pythonInitialised w)
    /\ pythonInitialised w' = false
    /\ filterInfos w' = delete h (filterInfos w)
    /\ nextInfo w' = nextInfo w
    /\ readingSets w' = readingSets w
    /\ nextReadingSet w' = nextReadingSet w.
Proof.
  intros Hinfo Hlive.
  destruct (pythonInitialised w) eqn:Hflag; do 2 eexists.
  all: split;
    [ unfold plugin_shutdown;
      rewrite (bindM_Some _ _ _ _ _ (deref_info_run _ _ _ Hinfo));
      rewrite (bindM_Some _ _ _ _ _ (GILEnsure_run _ Hlive));
      autorewrite with world;
      erewrite (bindM_Some (call_filter _ _))
        by (apply call_filter_run; read_fields; exact Hinfo);
      read_fields; cbn [handle configCatName fst snd];
      unfold Py_CLEAR; step_emit; step_method; step_emit;
      bind_norm; rewrite (bindM_Some _ _ _ _ _ (getM_run _));
      read_fields; rewrite Hflag; cbv iota;
      unfold Py_Finalize;
      repeat first [ step_emit | bind_norm; rewrite bindM_modifyM ];
      bind_norm; autorewrite with world;
      unfold delete_FILTER_INFO; read_fields; rewrite lookup_insert_eq;
      autorewrite with world; rewrite delete_insert_eq; reflexivity
    | read_fields; split; [reflexivity|];
      rewrite ?List.filter_app; repeat split;
      first [reflexivity | exact Hlive | exact Hflag] ].
Qed.

End Lifecycle.

(** ** Computations that leave the interpreter's lifecycle alone *)

Lemma lifecycle_kept_refl w : lifecycle_kept w w.
Proof. repeat split. Qed.

Lemma lifecycle_kept_trans w1 w2 w3 :
  lifecycle_kept w1 w2 -> lifecycle_kept w2 w3 -> lifecycle_kept w1 w3.
Proof.
  intros (Ha & Hb & Hc) (Ha' & Hb' & Hc'). repeat split; congruence.
Qed.

Lemma lifecycle_kept_add_event e w :
  is_finalize e = false -> lifecycle_kept w (add_event e w).
Proof.
  intros He. repeat split. simpl.
  rewrite List.filter_app. simpl. rewrite He. apply app_nil_r.
Qed.

Lemma quiet_retM {A} (a : A) : quiet (retM a).
Proof. intros w a' w' [= <- <-]. apply lifecycle_kept_refl. Qed.

Lemma quiet_undefinedM {A} : quiet (@undefinedM A).
Proof. intros w a w' [=]. Qed.

Lemma quiet_bindM {A B} (m : M A) (k : A -> M B) :
  quiet m -> (forall a, quiet (k a)) -> quiet (bindM m k).
Proof.
  intros Hm Hk w b w' Hrun. unfold bindM in Hrun.
  destruct (m w) as [[a w1]|] eqn:Hmw; [|discriminate].
  eapply lifecycle_kept_trans; [eapply Hm|eapply Hk]; eassumption.
Qed.

Lemma quiet_emit e : is_finalize e = false -> quiet (emit e).
Proof.
  intros He w a w' [= <- <-]. now apply lifecycle_kept_add_event.
Qed.

Lemma quiet_set_py_error e : quiet (modifyM (set_py_error e)).
Proof. intros w a w' [= <- <-]. repeat split. Qed.

Lemma quiet_getM : quiet getM.
Proof. intros w a w' [= <- <-]. apply lifecycle_kept_refl. Qed.

Lemma quiet_Py_IsInitialized : quiet Py_IsInitialized.
Proof. intros w a w' [= <- <-]. apply lifecycle_kept_refl. Qed.

Lemma quiet_deref_info h : quiet (deref_info h).
Proof.
  intros w a w' Hrun. unfold deref_info in Hrun.
  destruct (filterInfos w !! h); [|discriminate].
  injection Hrun as <- <-. apply lifecycle_kept_refl.
Qed.

Lemma quiet_store_filter h f : quiet (store_filter h f).
Proof.
  intros w a w' Hrun. unfold store_filter in Hrun.
  destruct (filterInfos w !! h); [|discriminate].
  injection Hrun as <- <-. repeat split.
Qed.

Lemma quiet_getAllReadings p : quiet (getAllReadings p).
Proof.
  intros w a w' Hrun. unfold getAllReadings in Hrun.
  destruct (readingSets w !! p); [|discriminate].
  injection Hrun as <- <-. apply lifecycle_kept_refl.
Qed.

Lemma quiet_delete_ReadingSet p : quiet (delete_ReadingSet p).
Proof.
  intros w a w' Hrun. unfold delete_ReadingSet in Hrun.
  destruct (readingSets w !! p); [|discriminate].
  injection Hrun as <- <-.
  apply (lifecycle_kept_add_event _ (set_readingSets _ _ w)). reflexivity.
Qed.

Lemma quiet_new_ReadingSet rs : quiet (new_ReadingSet rs).
Proof.
  intros w a w' [= <- <-].
  apply (lifecycle_kept_add_event _ (set_readingSets _ _ w)). reflexivity.
Qed.

Lemma quiet_call_output f p : quiet (call_output f p).
Proof.
  intros w a w' [= <- <-]. now apply lifecycle_kept_add_event.
Qed.

Create HintDb quiet.

#[local] Hint Resolve quiet_retM quiet_undefinedM quiet_set_py_error
  quiet_getM quiet_Py_IsInitialized quiet_deref_info quiet_store_filter
  quiet_getAllReadings quiet_delete_ReadingSet quiet_new_ReadingSet
  quiet_call_output : quiet.

#[local] Hint Extern 1 (quiet (emit _)) =>
  apply quiet_emit; reflexivity : quiet.

(** A computation built from quiet parts is taken apart along its binds
    and its case distinctions. *)
Ltac quiet_steps :=
  repeat first
    [ apply quiet_bindM; [|intros ?]
    | match goal with
      | |- quiet (if ?b then _ else _) => destruct b
      | |- quiet (match ?x with _ => _ end) => destruct x
      end
    | solve [eauto with quiet] ].

Lemma quiet_call_filter {A} h (method : Python27Filter -> A * Python27Filter) :
  quiet (call_filter h method).
Proof. unfold call_filter. quiet_steps. Qed.

Lemma quiet_track_readings service readings :
  quiet (track_readings service readings).
Proof.
  induction readings as [|r rs IH]; simpl; [apply quiet_retM|].
  unfold addAssetTrackingTuple. quiet_steps.
Qed.

Lemma quiet_PyGILState_Ensure : quiet PyGILState_Ensure.
Proof. unfold PyGILState_Ensure. quiet_steps. Qed.

Lemma quiet_PyObject_CallFunction callable arg :
  quiet (PyObject_CallFunction callable arg).
Proof. unfold PyObject_CallFunction. quiet_steps. Qed.

Lemma quiet_logErrorMessage f : quiet (logErrorMessage f).
Proof. unfold logErrorMessage. quiet_steps. Qed.

#[local] Hint Resolve quiet_call_filter quiet_track_readings
  quiet_PyGILState_Ensure quiet_PyObject_CallFunction
  quiet_logErrorMessage : quiet.

Section QuietPlugin.
Context `{Impl : Python27FilterImpl}.

Lemma quiet_plugin_ingest h readingSet : quiet (plugin_ingest h readingSet).
Proof.
  unfold plugin_ingest, use_filtered_readings, Logger_error,
    PyGILState_Release, Py_CLEAR.
  quiet_steps.
Qed.

Lemma quiet_plugin_reconfigure h newConfig :
  quiet (plugin_reconfigure h newConfig).
Proof. unfold plugin_reconfigure, PyGILState_Release. quiet_steps. Qed.

End QuietPlugin.

(** ** The allocator's next name is unused in every reachable world *)

Lemma keeps_fresh_retM {A} (a : A) : keeps_fresh (retM a).
Proof. intros w a' w' Hw [= <- <-]. exact Hw. Qed.

Lemma keeps_fresh_undefinedM {A} : keeps_fresh (@undefinedM A).
Proof. intros w a w' _ [=]. Qed.

Lemma keeps_fresh_bindM {A B} (m : M A) (k : A -> M B) :
  keeps_fresh m -> (forall a, keeps_fresh (k a)) -> keeps_fresh (bindM m k).
Proof.
  intros Hm Hk w b w' Hw Hrun. unfold bindM in Hrun.
  destruct (m w) as [[a w1]|] eqn:Hmw; [|discriminate].
  eapply Hk; [eapply Hm|]; eassumption.
Qed.

(** A write that leaves the heap of batches alone. *)
Lemma keeps_fresh_modifyM (f : World -> World) :
  (forall w, readingSets (f w) = readingSets w
             /\ nextReadingSet (f w) = nextReadingSet w) ->
  keeps_fresh (modifyM f).
Proof.
  intros Hf w a w' Hw [= <- <-] q Hq.
  destruct (Hf w) as [Hheap Hnext]. rewrite Hheap. apply Hw. now rewrite <- Hnext.
Qed.

Lemma keeps_fresh_emit e : keeps_fresh (emit e).
Proof. apply keeps_fresh_modifyM. now intros w. Qed.

Lemma keeps_fresh_getM : keeps_fresh getM.
Proof. intros w a w' Hw [= <- <-]. exact Hw. Qed.

Lemma keeps_fresh_Py_IsInitialized : keeps_fresh Py_IsInitialized.
Proof. intros w a w' Hw [= <- <-]. exact Hw. Qed.

Lemma keeps_fresh_deref_info h : keeps_fresh (deref_info h).
Proof.
  intros w a w' Hw Hrun. unfold deref_info in Hrun.
  destruct (filterInfos w !! h); [|discriminate].
  now injection Hrun as <- <-.
Qed.

Lemma keeps_fresh_store_filter h f : keeps_fresh (store_filter h f).
Proof.
  intros w a w' Hw Hrun. unfold store_filter in Hrun.
  destruct (filterInfos w !! h); [|discriminate].
  injection Hrun as <- <-. exact Hw.
Qed.

Lemma keeps_fresh_new_FILTER_INFO info : keeps_fresh (new_FILTER_INFO info).
Proof. intros w a w' Hw [= <- <-]. exact Hw. Qed.

Lemma keeps_fresh_delete_FILTER_INFO h : keeps_fresh (delete_FILTER_INFO h).
Proof.
  intros w a w' Hw Hrun. unfold delete_FILTER_INFO in Hrun.
  destruct (filterInfos w !! h); [|discriminate].
  injection Hrun as <- <-. exact Hw.
Qed.

Lemma keeps_fresh_getAllReadings p : keeps_fresh (getAllReadings p).
Proof.
  intros w a w' Hw Hrun. unfold getAllReadings in Hrun.
  destruct (readingSets w !! p); [|discriminate].
  now injection Hrun as <- <-.
Qed.

Lemma keeps_fresh_call_output f p : keeps_fresh (call_output f p).
Proof. intros w a w' Hw [= <- <-]. exact Hw. Qed.

Lemma keeps_fresh_delete_ReadingSet p : keeps_fresh (delete_ReadingSet p).
Proof.
  intros w a w' Hw Hrun. unfold delete_ReadingSet in Hrun.
  destruct (readingSets w !! p); [|discriminate].
  injection Hrun as <- <-. intros q Hq. simpl in *.
  destruct (decide (p = q)) as [->|Hne].
  - apply lookup_delete_eq.
  - rewrite lookup_delete_ne by exact Hne. now apply Hw.
Qed.

Lemma keeps_fresh_new_ReadingSet rs : keeps_fresh (new_ReadingSet rs).
Proof.
  intros w a w' Hw [= <- <-] q Hq. simpl in *.
  rewrite lookup_insert_ne by lia. apply Hw. lia.
Qed.

Create HintDb fresh.

#[local] Hint Resolve keeps_fresh_retM keeps_fresh_undefinedM
  keeps_fresh_emit keeps_fresh_getM keeps_fresh_Py_IsInitialized
  keeps_fresh_deref_info keeps_fresh_store_filter
  keeps_fresh_new_FILTER_INFO keeps_fresh_delete_FILTER_INFO
  keeps_fresh_getAllReadings keeps_fresh_call_output
  keeps_fresh_delete_ReadingSet keeps_fresh_new_ReadingSet : fresh.

#[local] Hint Extern 1 (keeps_fresh (modifyM _)) =>
  apply keeps_fresh_modifyM; intros ?; split; reflexivity : fresh.

Ltac fresh_steps :=
  repeat first
    [ apply keeps_fresh_bindM; [|intros ?]
    | match goal with
      | |- keeps_fresh (if ?b then _ else _) => destruct b
      | |- keeps_fresh (match ?x with _ => _ end) => destruct x
      end
    | solve [eauto with fresh] ].

Lemma keeps_fresh_track_readings service readings :
  keeps_fresh (track_readings service readings).
Proof.
  induction readings as [|r rs IH]; simpl; [apply keeps_fresh_retM|].
  unfold addAssetTrackingTuple. fresh_steps.
Qed.

#[local] Hint Resolve keeps_fresh_track_readings : fresh.

Section FreshPlugin.
Context `{Impl : Python27FilterImpl}.

Lemma keeps_fresh_host_call c : keeps_fresh (host_call c).
Proof.
  destruct c; simpl;
    unfold plugin_init, plugin_ingest, plugin_reconfigure, plugin_shutdown,
      use_filtered_readings, call_filter, logErrorMessage,
      PyObject_CallFunction, PyGILState_Ensure, PyGILState_Release,
      Py_Initialize, Py_Finalize, Py_CLEAR, Logger_error;
    fresh_steps.
Qed.

Lemma keeps_fresh_host_calls cs : keeps_fresh (host_calls cs).
Proof.
  induction cs as [|c cs IH]; simpl; [apply keeps_fresh_retM|].
  apply keeps_fresh_bindM; [apply keeps_fresh_host_call|intros _; exact IH].
Qed.

(** The hypothesis of C6 on the allocator holds wherever the host can
    bring the process. *)
Lemma next_name_unused_when_reached cs w :
  host_calls cs initial_world = Some (tt, w) ->
  readingSets w !! nextReadingSet w = None.
Proof.
  intros Hrun.
  assert (Hfresh : names_fresh w).
  { eapply keeps_fresh_host_calls; [|exact Hrun].
    intros q _. apply lookup_empty. }
  apply Hfresh. lia.
Qed.

End FreshPlugin.

(** ** Properties of plugin_init and plugin_shutdown *)

Section LifecycleProperties.
Context `{Impl : Python27FilterImpl}.

Lemma plugin_shutdown_defined h w a w' :
  plugin_shutdown h w = Some (a, w') ->
  (exists info, filterInfos w !! h = Some info) /\ py_live w = true.
Proof.
  intros Hrun. unfold plugin_shutdown in Hrun.
  unfold bindM at 1, deref_info in Hrun.
  destruct (filterInfos w !! h) as [info|] eqn:Hinfo; [|discriminate].
  split; [now exists info|].
  unfold bindM at 1, PyGILState_Ensure, Py_IsInitialized in Hrun.
  unfold bindM at 1 in Hrun.
  destruct (py_live w); [reflexivity|discriminate].
Qed.

Lemma host_call_orphaned c w w' :
  orphaned w ->
  host_call c w = Some (tt, w') ->
  orphaned w'
  /\ List.filter is_finalize (trace w') = List.filter is_finalize (trace w).
Proof.
  intros [Hlive Hflag] Hrun. destruct c as [config o u|h p|h s|h|rs].
  - destruct (plugin_init_run w config o u)
      as (w1 & es & Hinit & Htr & Hfin & _ & Hl & Hf & _).
    simpl in Hrun. rewrite (bindM_Some _ _ _ _ _ Hinit) in Hrun.
    injection Hrun as <-. rewrite Hlive, Hflag in Hf.
    repeat split; [exact Hl| |].
    + rewrite Hf. now destruct (init_aborts config o u).
    + rewrite Htr, List.filter_app, Hfin. apply app_nil_r.
  - apply quiet_plugin_ingest in Hrun as (Ha & Hb & Hc).
    unfold orphaned. rewrite Ha, Hb. auto.
  - apply quiet_plugin_reconfigure in Hrun as (Ha & Hb & Hc).
    unfold orphaned. rewrite Ha, Hb. auto.
  - simpl in Hrun.
    destruct (plugin_shutdown_defined _ _ _ _ Hrun) as [[info Hinfo] _].
    destruct (plugin_shutdown_run w h info Hinfo Hlive)
      as (w1 & es & Hsd & Htr & Hfin & Hl & Hf & _).
    rewrite Hsd in Hrun. injection Hrun as <-.
    rewrite Hflag in Hfin, Hl.
    repeat split; [exact Hl|exact Hf|].
    rewrite Htr, List.filter_app, Hfin. apply app_nil_r.
  - simpl in Hrun.
    assert (Hq : quiet (run! new_ReadingSet rs in retM tt))
      by (apply quiet_bindM; [apply quiet_new_ReadingSet|intros; apply quiet_retM]).
    apply Hq in Hrun as (Ha & Hb & Hc).
    unfold orphaned. rewrite Ha, Hb. auto.
Qed.

Lemma host_calls_orphaned cs : forall w w',
  orphaned w ->
  host_calls cs w = Some (tt, w') ->
  orphaned w'
  /\ List.filter is_finalize (trace w') = List.filter is_finalize (trace w).
Proof.
  induction cs as [|c cs IH]; intros w w' Horph Hrun; simpl in Hrun.
  - injection Hrun as <-. auto.
  - unfold bindM in Hrun.
    destruct (host_call c w) as [[[] w1]|] eqn:Hc; [|discriminate].
    destruct (host_call_orphaned c w w1 Horph Hc) as [Horph1 Hfin1].
    destruct (IH w1 w' Horph1 Hrun) as [Horph' Hfin'].
    split; [exact Horph'|congruence].
Qed.

(** C8. plugin_init returns null exactly when a script name was
    configured and the subsequent configure step fails; when no script
    name is configured (empty name), plugin_init does not fail but returns
    a valid handle with the filter forced into the Disabled state,
    whatever the [enable] item says.  The call is defined in every
    world. *)
Theorem C8_init_null_iff_named_script_fails_to_configure
    (w : World) (config : ConfigCategory) (outHandle output : nat) :
  exists r w',
    plugin_init config outHandle output w = Some (r, w')
    /\ (r = None <->
        item_script config <> ""
        /\ configure_succeeds config outHandle output = false)
    /\ (item_script config = "" ->
        r = Some (nextInfo w)
        /\ exists info,
             filterInfos w' !! nextInfo w = Some info
             /\ isEnabled (handle info) = false).
Proof.
  destruct (plugin_init_run w config outHandle output)
    as (w' & es & Hinit & _ & _ & _ & _ & _ & Hinfos & _).
  eexists _, w'. split; [exact Hinit|]. split.
  - unfold init_aborts, has_script.
    destruct (String.eqb_spec (item_script config) "") as [Heq|Hne];
      destruct (configure_succeeds config outHandle output);
      simpl; split; try discriminate; try tauto;
      intros [? ?]; congruence.
  - intros Hempty. unfold init_aborts, has_script.
    rewrite Hempty. simpl. split; [reflexivity|].
    eexists. split.
    + rewrite Hinfos. apply lookup_insert_eq.
    + unfold filter_after_init, has_script. rewrite Hempty. reflexivity.
Qed.

(** C2, as amended.  plugin_shutdown finalizes the process-wide
    interpreter exactly when the process-wide flag [pythonInitialised] is
    set at the time of the call, whichever instance makes the call, and
    it leaves the flag clear; a shutdown that finds the flag clear leaves
    the interpreter live.  The call is assumed defined: the handle is live
    and so is the interpreter. *)
Theorem C2_shutdown_finalizes_iff_flag_set
    (w : World) (h : nat) (info : FILTER_INFO) :
  filterInfos w !! h = Some info ->
  py_live w = true ->
  exists w' es,
    plugin_shutdown h w = Some (tt, w')
    /\ trace w' = trace w ++ es
    /\ (pythonInitialised w = true ->
        List.filter is_finalize es = [EvPyFinalize] /\ py_live w' = false)
    /\ (pythonInitialised w = false ->
        List.filter is_finalize es = [] /\ py_live w' = true)
    /\ pythonInitialised w' = false.
Proof.
  intros Hinfo Hlive.
  destruct (plugin_shutdown_run w h info Hinfo Hlive)
    as (w' & es & Hsd & Htr & Hfin & Hl & Hf & _).
  exists w', es. split; [exact Hsd|]. split; [exact Htr|].
  split; [|split; [|exact Hf]]; intros Hflag; rewrite Hfin, Hl, Hflag;
    split; reflexivity.
Qed.

(** C9. If the configure step fails during plugin_init of the instance
    whose init initialized the interpreter, plugin_init returns null and
    clears the process-wide [pythonInitialised] flag without calling
    Py_Finalize; as a consequence, no subsequent plugin_shutdown call in
    the process will ever finalize the still-live interpreter: whatever
    the host calls afterwards, the interpreter stays live and the trace
    gains no Py_Finalize. *)
Theorem C9_failed_configure_orphans_interpreter
    (w : World) (config : ConfigCategory) (outHandle output : nat) :
  py_live w = false ->
  item_script config <> "" ->
  configure_succeeds config outHandle output = false ->
  exists w' es,
    plugin_init config outHandle output w = Some (None, w')
    /\ trace w' = trace w ++ es
    /\ In EvPyInitialize es
    /\ List.filter is_finalize es = []
    /\ py_live w' = true
    /\ pythonInitialised w' = false
    /\ forall calls w'',
         host_calls calls w' = Some (tt, w'') ->
         py_live w'' = true
         /\ pythonInitialised w'' = false
         /\ List.filter is_finalize (trace w'')
            = List.filter is_finalize (trace w).
Proof.
  intros Hdead Hnamed Hfail.
  destruct (plugin_init_run w config outHandle output)
    as (w' & es & Hinit & Htr & Hfin & Hpyinit & Hl & Hf & _).
  assert (Habort : init_aborts config outHandle output = true).
  { unfold init_aborts, has_script. rewrite Hfail.
    destruct (String.eqb_spec (item_script config) ""); [contradiction|].
    reflexivity. }
  rewrite Habort in Hinit, Hf.
  exists w', es.
  split; [exact Hinit|]. split; [exact Htr|].
  split; [now apply Hpyinit|]. split; [exact Hfin|].
  split; [exact Hl|]. split; [exact Hf|].
  intros calls w'' Hcalls.
  destruct (host_calls_orphaned calls w' w'' (conj Hl Hf) Hcalls)
    as [[Hl' Hf'] Hkeep].
  split; [exact Hl'|]. split; [exact Hf'|].
  rewrite Hkeep, Htr, List.filter_app, Hfin. apply app_nil_r.
Qed.

End LifecycleProperties.

(** ** The plugin on concrete inputs *)

Section Concrete.
Import Demo.
#[local] Existing Instance demo_impl.

(** The worlds of the demo are reached from the start of the process. *)
Example w_identity_reached :
  started true "identity" [sensorA; sensorB] = Some w_identity.
Proof. vm_compute. reflexivity. Qed.

Example w_two_filters_reached :
  snd <$> host_calls [CallInit (config_of true "identity") 7 9;
                      CallInit (config_of true "identity") 8 9] initial_world
  = Some w_two_filters.
Proof. vm_compute. reflexivity. Qed.

(** C7 at a disabled filter and a batch of two readings. *)
Lemma C7_witness :
  exists es,
    plugin_ingest 0 0 w_disabled = Some (tt, add_events es w_disabled)
    /\ outputs es = [(0, readingSets w_disabled !! 0)]
    /\ List.filter is_interpreter_touch es = []
    /\ List.filter is_delete es = []
    /\ tracked es = [].
Proof.
  eapply (C7_disabled_forwards_same_object w_disabled 0 0);
    vm_compute; reflexivity.
Defined.

(** C1 at the script that raises ZeroDivisionError. *)
Lemma C1_witness :
  py_live w_raises = true
  /\ readingSets w_raises !! 0 = Some [sensorA; sensorB]
  /\ exists es w',
       plugin_ingest 0 0 w_raises = Some (tt, w')
       /\ trace w' = trace w_raises ++ es
       /\ outputs es = [(0, Some [sensorA; sensorB])]
       /\ readingSets w' = readingSets w_raises
       /\ List.filter is_delete es = []
       /\ List.filter is_log es
          = [EvLoggerError
               "Filter 'python27' (py27), script 'raises', filter error, action: pass unfiltered data onwards";
             EvLogErrorMessage
               "ZeroDivisionError('integer division or modulo by zero',)"]
       /\ In EvErrFetch es
       /\ py_error w' = None.
Proof.
  split; [reflexivity|]. split; [reflexivity|].
  eapply (C1_script_raises_forwards_original w_raises 0 0
            (info_at w_raises 0) [sensorA; sensorB]);
    vm_compute; reflexivity.
Defined.

(** C4 at a batch whose second reading carries an array. *)
Lemma C4_witness :
  readingSets w_nested !! 0 = Some [sensorA; nested]
  /\ createReadingsList (handle (info_at w_nested 0)) [sensorA; nested] = None
  /\ exists es,
       plugin_ingest 0 0 w_nested = Some (tt, add_events es w_nested)
       /\ outputs es = [(0, Some [sensorA; nested])]
       /\ List.filter is_log es
          = [EvLoggerError
               "Filter 'python27' (py27), script 'identity', create filter data error, action: pass unfiltered data onwards"]
       /\ List.filter is_delete es = []
       /\ ~ In EvCallFunction es.
Proof.
  split; [reflexivity|]. split; [reflexivity|].
  eapply (C4_marshal_failure_forwards_original w_nested 0 0
            (info_at w_nested 0) [sensorA; nested]);
    vm_compute; reflexivity.
Defined.

(** C5 at the script that returns a string where a list is expected. *)
Lemma C5_witness :
  readingSets w_garbage !! 0 = Some [sensorA; sensorB]
  /\ exists es,
       plugin_ingest 0 0 w_garbage = Some (tt, add_events es w_garbage)
       /\ outputs es = [(0, Some [sensorA; sensorB])]
       /\ List.filter is_delete es = []
       /\ List.filter is_log es = [].
Proof.
  split; [reflexivity|].
  eapply (C5_marshal_back_failure_forwards_original_silently w_garbage 0 0
            (info_at w_garbage 0) [sensorA; sensorB]);
    vm_compute; reflexivity.
Defined.

(** C6 at the script that drops the first reading: batch 0 dies and the
    new batch 1 holds the one reading left. *)
Lemma C6_witness :
  readingSets w_drop_first !! 0 = Some [sensorA; sensorB]
  /\ readingSets w_drop_first !! 1 = None
  /\ exists es w',
       plugin_ingest 0 0 w_drop_first = Some (tt, w')
       /\ trace w' = trace w_drop_first ++ es
       /\ List.filter is_delete es = [EvDeleteReadingSet 0]
       /\ readingSets w' !! 0 = None
       /\ outputs es = [(1, Some [sensorB])]
       /\ 1 <> 0
       /\ readingSets w' !! 1 = Some [sensorB].
Proof.
  split; [reflexivity|]. split; [reflexivity|].
  eapply (C6_success_replaces_batch w_drop_first 0 0
            (info_at w_drop_first 0) [sensorA; sensorB] [sensorB]);
    vm_compute; reflexivity.
Defined.

(** C10 on the success path of the identity script. *)
Lemma C10_witness :
  exists es w',
    plugin_ingest 0 0 w_identity = Some (tt, w')
    /\ trace w' = trace w_identity ++ es
    /\ outputs es = [(1, Some [sensorA; sensorB])]
    /\ List.filter is_delete es = [EvDeleteReadingSet 0].
Proof.
  exact (C10_output_called_exactly_once w_identity 0 0
           (info_at w_identity 0) [sensorA; sensorB]
           eq_refl eq_refl (fun _ => eq_refl)).
Defined.

(** C3 as stated fails on the disabled path: a batch of two readings is
    forwarded, and not one tuple has been recorded, in this call or
    before it. *)
Lemma C3_counterexample :
  isEnabled (handle (info_at w_disabled 0)) = false
  /\ exists w',
       plugin_ingest 0 0 w_disabled = Some (tt, w')
       /\ outputs (drop (length (trace w_disabled)) (trace w'))
          = [(0, Some [sensorA; sensorB])]
       /\ tracked (trace w') = []
       /\ ~ In ("py27", "sensorA", "Filter") (tracked (trace w')).
Proof.
  split; [reflexivity|]. eexists. split; [vm_compute; reflexivity|].
  split; [reflexivity|]. split; [reflexivity|]. intros [].
Qed.

(** C3 as amended, on the success path of the identity script: the
    tuples of the input batch, then those of the forwarded batch. *)
Lemma C3_witness :
  exists es w' p forwarded,
    plugin_ingest 0 0 w_identity = Some (tt, w')
    /\ trace w' = trace w_identity ++ es
    /\ outputs es = [(p, Some forwarded)]
    /\ tracked es
       = tuples_of "py27" [sensorA; sensorB] ++ tuples_of "py27" forwarded.
Proof.
  exact (C3_forwarded_records_tracked_when_enabled w_identity 0 0
           (info_at w_identity 0) [sensorA; sensorB]
           eq_refl eq_refl (fun _ => eq_refl)).
Defined.

(** C2 as stated fails with two filters in one process: the first
    initialized the interpreter, the second did not, and the shutdown of
    the second finalizes it while the first is still there. *)
Lemma C2_counterexample :
  exists wA wB w',
    plugin_init (config_of true "identity") 7 9 initial_world
    = Some (Some 0, wA)
    /\ In EvPyInitialize (trace wA)
    /\ plugin_init (config_of true "identity") 8 9 wA = Some (Some 1, wB)
    /\ ~ In EvPyInitialize (drop (length (trace wA)) (trace wB))
    /\ plugin_shutdown 1 wB = Some (tt, w')
    /\ py_live w' = false
    /\ In EvPyFinalize (drop (length (trace wB)) (trace w'))
    /\ exists info, filterInfos w' !! 0 = Some info.
Proof.
  do 3 eexists.
  split; [vm_compute; reflexivity|].
  split; [vm_compute; tauto|].
  split; [vm_compute; reflexivity|].
  split; [vm_compute; intuition discriminate|].
  split; [vm_compute; reflexivity|].
  split; [reflexivity|].
  split; [vm_compute; tauto|].
  eexists. vm_compute. reflexivity.
Qed.

(** C2 as amended, at the second of two filters while the flag is set. *)
Lemma C2_witness :
  pythonInitialised w_two_filters = true
  /\ exists w' es,
       plugin_shutdown 1 w_two_filters = Some (tt, w')
       /\ trace w' = trace w_two_filters ++ es
       /\ (pythonInitialised w_two_filters = true ->
           List.filter is_finalize es = [EvPyFinalize] /\ py_live w' = false)
       /\ (pythonInitialised w_two_filters = false ->
           List.filter is_finalize es = [] /\ py_live w' = true)
       /\ pythonInitialised w' = false.
Proof.
  split; [reflexivity|].
  eapply (C2_shutdown_finalizes_iff_flag_set w_two_filters 1
            (info_at w_two_filters 1));
    vm_compute; reflexivity.
Defined.

(** C8 at a configuration that names no script and asks for the filter to
    be enabled: a handle is returned and the filter behind it is
    disabled. *)
Lemma C8_witness :
  exists r w',
    plugin_init (config_of true "") 7 9 initial_world = Some (r, w')
    /\ (r = None <->
        item_script (config_of true "") <> ""
        /\ configure_succeeds (config_of true "") 7 9 = false)
    /\ (item_script (config_of true "") = "" ->
        r = Some 0
        /\ exists info,
             filterInfos w' !! 0 = Some info
             /\ isEnabled (handle info) = false).
Proof.
  apply (C8_init_null_iff_named_script_fails_to_configure
           initial_world (config_of true "") 7 9).
Defined.

(** C9 at the start of the process, with the script that cannot be
    bound. *)
Lemma C9_witness :
  exists w' es,
    plugin_init (config_of true "broken") 7 9 initial_world = Some (None, w')
    /\ trace w' = trace initial_world ++ es
    /\ In EvPyInitialize es
    /\ List.filter is_finalize es = []
    /\ py_live w' = true
    /\ pythonInitialised w' = false
    /\ forall calls w'',
         host_calls calls w' = Some (tt, w'') ->
         py_live w'' = true
         /\ pythonInitialised w'' = false
         /\ List.filter is_finalize (trace w'')
            = List.filter is_finalize (trace initial_world).
Proof.
  apply (C9_failed_configure_orphans_interpreter
           initial_world (config_of true "broken") 7 9).
  - reflexivity.
  - vm_compute. discriminate.
  - vm_compute. reflexivity.
Defined.

(** The scenario of C9, run: after the failed init a second filter is
    started and shut down again; its shutdown finds the flag clear and
    the interpreter outlives it. *)
Example C9_scenario :
  exists w',
    host_calls [CallInit (config_of true "broken") 7 9;
                CallInit (config_of true "identity") 8 9;
                CallShutdown 1] initial_world = Some (tt, w')
    /\ py_live w' = true
    /\ List.filter is_finalize (trace w') = [].
Proof. eexists. split; [vm_compute; reflexivity|]. split; reflexivity. Qed.

End Concrete.

(** ** Rules for scanning the events of a computation *)

Section ScanRules.
Context {S : Type}.
Variable step : S -> Event -> option S.

Lemma scan_app (s : S) (t1 t2 : list Event) :
  scan step s (t1 ++ t2)
  = match scan step s t1 with
    | Some s1 => scan step s1 t2
    | None => None
    end.
Proof.
  revert s. induction t1 as [|e t1 IH]; intros s; simpl; [reflexivity|].
  destruct (step s e); [apply IH|reflexivity].
Qed.

Lemma scans_silent {A} (m : M A) (s : S) :
  (forall w a w', m w = Some (a, w') -> trace w' = trace w) ->
  scans step s m s.
Proof.
  intros Hm w a w' Hrun. exists []. split; [|reflexivity].
  rewrite (Hm _ _ _ Hrun). symmetry. apply app_nil_r.
Qed.

Lemma scans_retM {A} (a : A) (s : S) : scans step s (retM a) s.
Proof. apply scans_silent. now intros w a' w' [= _ <-]. Qed.

Lemma scans_undefinedM {A} (s s' : S) : scans step s (@undefinedM A) s'.
Proof. intros w a w' [=]. Qed.

Lemma scans_bindM {A B} (m : M A) (k : A -> M B) (s mid s' : S) :
  scans step s m mid ->
  (forall a, scans step mid (k a) s') ->
  scans step s (bindM m k) s'.
Proof.
  intros Hm Hk w b w' Hrun. unfold bindM in Hrun.
  destruct (m w) as [[a w1]|] eqn:Hmw; [|discriminate].
  destruct (Hm _ _ _ Hmw) as (es1 & Ht1 & Hs1).
  destruct (Hk a _ _ _ Hrun) as (es2 & Ht2 & Hs2).
  exists (es1 ++ es2). split.
  - rewrite Ht2, Ht1. symmetry. apply app_assoc.
  - now rewrite scan_app, Hs1.
Qed.

Lemma scans_event {A} (m : M A) (e : Event) (s s' : S) :
  (forall w a w', m w = Some (a, w') -> trace w' = trace w ++ [e]) ->
  step s e = Some s' ->
  scans step s m s'.
Proof.
  intros Hm Hstep w a w' Hrun. exists [e]. split; [eauto|].
  simpl. now rewrite Hstep.
Qed.

Lemma scans_emit (e : Event) (s s' : S) :
  step s e = Some s' -> scans step s (emit e) s'.
Proof. apply scans_event. now intros w a w' [= _ <-]. Qed.

Lemma scans_modifyM (f : World -> World) (s : S) :
  (forall w, trace (f w) = trace w) -> scans step s (modifyM f) s.
Proof. intros Hf. apply scans_silent. intros w a w' [= _ <-]. apply Hf. Qed.

Lemma scans_getM (s : S) : scans step s getM s.
Proof. apply scans_silent. now intros w a w' [= _ <-]. Qed.

Lemma scans_Py_IsInitialized (s : S) : scans step s Py_IsInitialized s.
Proof. apply scans_silent. now intros w a w' [= _ <-]. Qed.

Lemma scans_deref_info h (s : S) : scans step s (deref_info h) s.
Proof.
  apply scans_silent. intros w a w' Hrun. unfold deref_info in Hrun.
  destruct (filterInfos w !! h); [|discriminate]. now injection Hrun as _ <-.
Qed.

Lemma scans_store_filter h f (s : S) : scans step s (store_filter h f) s.
Proof.
  apply scans_silent. intros w a w' Hrun. unfold store_filter in Hrun.
  destruct (filterInfos w !! h); [|discriminate]. now injection Hrun as _ <-.
Qed.

Lemma scans_new_FILTER_INFO info (s : S) :
  scans step s (new_FILTER_INFO info) s.
Proof. apply scans_silent. now intros w a w' [= _ <-]. Qed.

Lemma scans_getAllReadings p (s : S) : scans step s (getAllReadings p) s.
Proof.
  apply scans_silent. intros w a w' Hrun. unfold getAllReadings in Hrun.
  destruct (readingSets w !! p); [|discriminate]. now injection Hrun as _ <-.
Qed.

Lemma scans_delete_FILTER_INFO h (s s' : S) :
  step s (EvDeleteFilter h) = Some s' ->
  scans step s (delete_FILTER_INFO h) s'.
Proof.
  apply scans_event. intros w a w' Hrun. unfold delete_FILTER_INFO in Hrun.
  destruct (filterInfos w !! h); [|discriminate]. now injection Hrun as _ <-.
Qed.

Lemma scans_delete_ReadingSet p (s s' : S) :
  step s (EvDeleteReadingSet p) = Some s' ->
  scans step s (delete_ReadingSet p) s'.
Proof.
  apply scans_event. intros w a w' Hrun. unfold delete_ReadingSet in Hrun.
  destruct (readingSets w !! p); [|discriminate]. now injection Hrun as _ <-.
Qed.

Lemma scans_new_ReadingSet rs (s s' : S) :
  (forall p, step s (EvNewReadingSet p) = Some s') ->
  scans step s (new_ReadingSet rs) s'.
Proof.
  intros Hstep w a w' [= _ <-]. exists [EvNewReadingSet (nextReadingSet w)].
  split; [reflexivity|]. simpl. now rewrite Hstep.
Qed.

Lemma scans_call_output f p (s s' : S) :
  (forall seen, step s (EvOutput (m_func f) (m_data f) p seen) = Some s') ->
  scans step s (call_output f p) s'.
Proof.
  intros Hstep w a w' [= _ <-]. eexists [_].
  split; [reflexivity|]. simpl. now rewrite Hstep.
Qed.

Lemma scans_track_readings service readings (s : S) :
  (forall asset, step s (EvAssetTrack service asset "Filter") = Some s) ->
  scans step s (track_readings service readings) s.
Proof.
  intros Hstep. induction readings as [|r rs IH]; simpl.
  - apply scans_retM.
  - eapply scans_bindM; [|intros _; exact IH].
    apply scans_emit, Hstep.
Qed.

End ScanRules.

(** A computation is scanned along its binds and its case distinctions;
    the scanner is stepped by evaluation at each call. *)
Ltac scan_steps :=
  repeat first
    [ eapply scans_bindM; [|intros ?]
    | match goal with
      | |- scans _ _ (if ?b then _ else _) _ => destruct b
      | |- scans _ _ (match ?x with _ => _ end) _ => destruct x
      end
    | apply scans_retM
    | apply scans_undefinedM
    | apply scans_getM
    | apply scans_Py_IsInitialized
    | apply scans_deref_info
    | apply scans_store_filter
    | apply scans_new_FILTER_INFO
    | apply scans_getAllReadings
    | apply scans_emit; lazy; reflexivity
    | apply scans_modifyM; intros ?; reflexivity
    | apply scans_delete_FILTER_INFO; lazy; reflexivity
    | apply scans_delete_ReadingSet; lazy; reflexivity
    | eapply scans_new_ReadingSet; intros ?; lazy; reflexivity
    | eapply scans_call_output; intros ?; lazy; reflexivity
    | apply scans_track_readings; intros ?; lazy; reflexivity ].

(** The entry points with their helpers laid open. *)
Ltac open_plugin :=
  unfold plugin_init, plugin_ingest, plugin_reconfigure, plugin_shutdown,
    use_filtered_readings, call_filter, logErrorMessage,
    PyObject_CallFunction, PyGILState_Ensure, PyGILState_Release,
    Py_Initialize, Py_Finalize, Py_CLEAR, Logger_error,
    addAssetTrackingTuple.

Lemma trace_suffix_unique (t es1 es2 : list Event) :
  t ++ es1 = t ++ es2 -> es1 = es2.
Proof. apply app_inv_head. Qed.

Lemma scan_count_step (P : Event -> bool) (n : nat) (t : list Event) :
  scan (count_step P) n t = Some (length (List.filter P t) + n).
Proof.
  revert n. induction t as [|e t IH]; intros n; simpl; [reflexivity|].
  rewrite IH. destruct (P e); simpl; f_equal; lia.
Qed.

Lemma outputs_length (t : list Event) :
  length (outputs t) = length (List.filter is_output t).
Proof.
  induction t as [|e t IH]; [reflexivity|].
  destruct e; simpl; try exact IH. now rewrite <- IH.
Qed.

Lemma tracked_length (t : list Event) :
  length (tracked t) = length (List.filter is_track t).
Proof.
  induction t as [|e t IH]; [reflexivity|].
  destruct e; simpl; try exact IH. now rewrite <- IH.
Qed.

Section EntryPointScans.
Context `{Impl : Python27FilterImpl}.

(** *** The global interpreter lock *)

Lemma gil_plugin_init config outHandle output d :
  scans gil_step d (plugin_init config outHandle output) d.
Proof. open_plugin. scan_steps. Qed.

Lemma gil_plugin_ingest h readingSet d :
  scans gil_step d (plugin_ingest h readingSet) d.
Proof. open_plugin. scan_steps. Qed.

Lemma gil_plugin_reconfigure h newConfig d :
  scans gil_step d (plugin_reconfigure h newConfig) d.
Proof. open_plugin. scan_steps. Qed.

(** plugin_shutdown acquires the lock and returns without releasing it. *)
Lemma gil_plugin_shutdown h d :
  scans gil_step d (plugin_shutdown h) (S d).
Proof. open_plugin. scan_steps. Qed.

Lemma gil_host_call c d :
  scans gil_step d (host_call c) (if is_shutdown_call c then S d else d).
Proof.
  destruct c; simpl.
  - eapply scans_bindM; [apply gil_plugin_init|intros _; apply scans_retM].
  - apply gil_plugin_ingest.
  - apply gil_plugin_reconfigure.
  - apply gil_plugin_shutdown.
  - open_plugin. scan_steps.
Qed.

Lemma gil_host_calls cs : forall d,
  scans gil_step d (host_calls cs)
        (length (List.filter is_shutdown_call cs) + d).
Proof.
  induction cs as [|c cs IH]; intros d; simpl; [apply scans_retM|].
  eapply scans_bindM; [apply gil_host_call|intros _].
  destruct (is_shutdown_call c); simpl.
  - replace (S (length (List.filter is_shutdown_call cs) + d))
      with (length (List.filter is_shutdown_call cs) + S d) by lia.
    apply IH.
  - apply IH.
Qed.

(** X1. Whatever sequence of entry points the host calls, every call of
    the plugin that creates, reads or releases an interpreter object is
    made with the global interpreter lock acquired, no release lacks its
    acquisition, and plugin_init, plugin_ingest and plugin_reconfigure
    release on every path what they acquired; plugin_shutdown alone
    returns with the lock still acquired, so that the acquisitions left
    open at the end number the plugin_shutdown calls made. *)
Theorem X1_gil_acquired_around_every_interpreter_touch
    (cs : list HostCall) (w w' : World) :
  host_calls cs w = Some (tt, w') ->
  exists es,
    trace w' = trace w ++ es
    /\ forall depth,
         scan gil_step depth es
         = Some (length (List.filter is_shutdown_call cs) + depth).
Proof.
  intros Hrun.
  destruct (gil_host_calls cs 0 _ _ _ Hrun) as (es & Htr & _).
  exists es. split; [exact Htr|]. intros depth.
  destruct (gil_host_calls cs depth _ _ _ Hrun) as (es' & Htr' & Hscan).
  rewrite Htr in Htr'. now rewrite (trace_suffix_unique _ _ _ Htr').
Qed.

(** *** Calls of the output stream *)

Lemma outputs_host_call c n :
  scans (count_step is_output) n (host_call c)
        (if is_ingest_call c then S n else n).
Proof. destruct c; simpl; open_plugin; scan_steps. Qed.

Lemma outputs_host_calls cs : forall n,
  scans (count_step is_output) n (host_calls cs)
        (length (List.filter is_ingest_call cs) + n).
Proof.
  induction cs as [|c cs IH]; intros n; simpl; [apply scans_retM|].
  eapply scans_bindM; [apply outputs_host_call|intros _].
  destruct (is_ingest_call c); simpl.
  - replace (S (length (List.filter is_ingest_call cs) + n))
      with (length (List.filter is_ingest_call cs) + S n) by lia.
    apply IH.
  - apply IH.
Qed.

(** X2. Over any sequence of entry points the host calls, the output
    stream is called once for each plugin_ingest call and not otherwise:
    plugin_init, plugin_reconfigure and plugin_shutdown never pass data
    on, and no plugin_ingest call returns without having passed a batch
    on. *)
Theorem X2_one_output_per_ingest_call
    (cs : list HostCall) (w w' : World) :
  host_calls cs w = Some (tt, w') ->
  exists es,
    trace w' = trace w ++ es
    /\ length (outputs es) = length (List.filter is_ingest_call cs).
Proof.
  intros Hrun.
  destruct (outputs_host_calls cs 0 _ _ _ Hrun) as (es & Htr & Hscan).
  exists es. split; [exact Htr|].
  rewrite scan_count_step in Hscan. injection Hscan as Hlen.
  rewrite outputs_length. lia.
Qed.

(** *** Asset tracking *)

Lemma tracking_host_call c n :
  is_ingest_call c = false ->
  scans (count_step is_track) n (host_call c) n.
Proof. destruct c; simpl; try discriminate; intros _; open_plugin; scan_steps. Qed.

(** X3. Asset-tracking tuples are recorded by plugin_ingest only: a call
    of plugin_init, plugin_reconfigure or plugin_shutdown records none
    and calls the output stream not once. *)
Theorem X3_only_ingest_records_asset_tuples
    (c : HostCall) (w w' : World) :
  is_ingest_call c = false ->
  host_call c w = Some (tt, w') ->
  exists es,
    trace w' = trace w ++ es /\ tracked es = [] /\ outputs es = [].
Proof.
  intros Hc Hrun.
  destruct (tracking_host_call c 0 Hc _ _ _ Hrun) as (es & Htr & Hscan).
  destruct (outputs_host_call c 0 _ _ _ Hrun) as (es' & Htr' & Hscan').
  rewrite Htr in Htr'. apply trace_suffix_unique in Htr' as <-.
  rewrite Hc in Hscan'.
  rewrite scan_count_step in Hscan, Hscan'.
  injection Hscan as Hlen. injection Hscan' as Hlen'.
  exists es. split; [exact Htr|]. split.
  - apply length_zero_iff_nil. rewrite tracked_length. lia.
  - apply length_zero_iff_nil. rewrite outputs_length. lia.
Qed.

End EntryPointScans.

(** ** Rules for the parts of the world a computation leaves alone *)

Section FrameRules.
Context {X : Type}.
Variable part : World -> X.

Lemma frames_retM {A} (a : A) : frames part (retM a).
Proof. now intros w a' w' [= _ <-]. Qed.

Lemma frames_undefinedM {A} : frames part (@undefinedM A).
Proof. intros w a w' [=]. Qed.

Lemma frames_bindM {A B} (m : M A) (k : A -> M B) :
  frames part m -> (forall a, frames part (k a)) -> frames part (bindM m k).
Proof.
  intros Hm Hk w b w' Hrun. unfold bindM in Hrun.
  destruct (m w) as [[a w1]|] eqn:Hmw; [|discriminate].
  rewrite (Hk _ _ _ _ Hrun). eapply Hm, Hmw.
Qed.

Lemma frames_modifyM (f : World -> World) :
  (forall w, part (f w) = part w) -> frames part (modifyM f).
Proof. intros Hf w a w' [= _ <-]. apply Hf. Qed.

Lemma frames_getM : frames part getM.
Proof. now intros w a w' [= _ <-]. Qed.

Lemma frames_Py_IsInitialized : frames part Py_IsInitialized.
Proof. now intros w a w' [= _ <-]. Qed.

Lemma frames_deref_info h : frames part (deref_info h).
Proof.
  intros w a w' Hrun. unfold deref_info in Hrun.
  destruct (filterInfos w !! h); [|discriminate]. now injection Hrun as _ <-.
Qed.

Lemma frames_getAllReadings p : frames part (getAllReadings p).
Proof.
  intros w a w' Hrun. unfold getAllReadings in Hrun.
  destruct (readingSets w !! p); [|discriminate]. now injection Hrun as _ <-.
Qed.

Lemma frames_call_output f p :
  (forall e w, part (add_event e w) = part w) -> frames part (call_output f p).
Proof. intros He w a w' [= _ <-]. apply He. Qed.

Lemma frames_store_filter h f :
  (forall m n w, part (set_filterInfos m n w) = part w) ->
  frames part (store_filter h f).
Proof.
  intros Hp w a w' Hrun. unfold store_filter in Hrun.
  destruct (filterInfos w !! h); [|discriminate].
  injection Hrun as _ <-. apply Hp.
Qed.

Lemma frames_new_FILTER_INFO info :
  (forall m n w, part (set_filterInfos m n w) = part w) ->
  frames part (new_FILTER_INFO info).
Proof. intros Hp w a w' [= _ <-]. apply Hp. Qed.

Lemma frames_delete_FILTER_INFO h :
  (forall e m n w, part (add_event e (set_filterInfos m n w)) = part w) ->
  frames part (delete_FILTER_INFO h).
Proof.
  intros Hp w a w' Hrun. unfold delete_FILTER_INFO in Hrun.
  destruct (filterInfos w !! h); [|discriminate].
  injection Hrun as _ <-. apply Hp.
Qed.

Lemma frames_delete_ReadingSet p :
  (forall e m n w, part (add_event e (set_readingSets m n w)) = part w) ->
  frames part (delete_ReadingSet p).
Proof.
  intros Hp w a w' Hrun. unfold delete_ReadingSet in Hrun.
  destruct (readingSets w !! p); [|discriminate].
  injection Hrun as _ <-. apply Hp.
Qed.

Lemma frames_new_ReadingSet rs :
  (forall e m n w, part (add_event e (set_readingSets m n w)) = part w) ->
  frames part (new_ReadingSet rs).
Proof. intros Hp w a w' [= _ <-]. apply Hp. Qed.

Lemma frames_track_readings service readings :
  (forall e w, part (add_event e w) = part w) ->
  frames part (track_readings service readings).
Proof.
  intros He. induction readings as [|r rs IH]; simpl; [apply frames_retM|].
  apply frames_bindM; [|intros _; exact IH].
  apply frames_modifyM, He.
Qed.

End FrameRules.

Ltac frame_steps :=
  repeat first
    [ apply frames_bindM; [|intros ?]
    | match goal with
      | |- frames _ (if ?b then _ else _) => destruct b
      | |- frames _ (match ?x with _ => _ end) => destruct x
      end
    | apply frames_retM
    | apply frames_undefinedM
    | apply frames_getM
    | apply frames_Py_IsInitialized
    | apply frames_deref_info
    | apply frames_getAllReadings
    | apply frames_modifyM; intros ?; reflexivity
    | apply frames_call_output; intros; reflexivity
    | apply frames_store_filter; intros; reflexivity
    | apply frames_new_FILTER_INFO; intros; reflexivity
    | apply frames_delete_FILTER_INFO; intros; reflexivity
    | apply frames_delete_ReadingSet; intros; reflexivity
    | apply frames_new_ReadingSet; intros; reflexivity
    | apply frames_track_readings; intros; reflexivity ].

Lemma frames_handles_store_filter h f : frames handles (store_filter h f).
Proof.
  intros w a w' Hrun. unfold store_filter in Hrun.
  destruct (filterInfos w !! h) as [info|] eqn:Hinfo; [|discriminate].
  injection Hrun as _ <-. unfold handles.
  cbn [filterInfos set_filterInfos].
  rewrite dom_insert_L. apply elem_of_dom_2 in Hinfo.
  apply subseteq_union_1_L. now apply singleton_subseteq_l.
Qed.

Section EntryPointFrames.
Context `{Impl : Python27FilterImpl}.

Lemma instances_plugin_ingest h readingSet :
  frames instances_and_lifecycle (plugin_ingest h readingSet).
Proof. open_plugin. frame_steps. Qed.

(** X4. plugin_ingest changes no filter object and leaves the
    interpreter's lifecycle alone: after a call, every handle names the
    filter object it named before, the interpreter is as live as it was
    and the flag pythonInitialised is as it was. *)
Theorem X4_ingest_leaves_filters_and_lifecycle
    (h readingSet : nat) (w w' : World) :
  plugin_ingest h readingSet w = Some (tt, w') ->
  filterInfos w' = filterInfos w
  /\ nextInfo w' = nextInfo w
  /\ py_live w' = py_live w
  /\ pythonInitialised w' = pythonInitialised w.
Proof.
  intros Hrun.
  apply instances_plugin_ingest in Hrun.
  unfold instances_and_lifecycle in Hrun.
  injection Hrun as ? ? ? ?. auto.
Qed.

(** X5. Batches are created and destroyed by plugin_ingest only:
    plugin_init, plugin_reconfigure and plugin_shutdown leave every batch,
    and the allocator of batches, as they were. *)
Theorem X5_only_ingest_touches_batches (w w' : World) :
  (forall config outHandle output r,
     plugin_init config outHandle output w = Some (r, w') ->
     readingSets w' = readingSets w /\ nextReadingSet w' = nextReadingSet w)
  /\ (forall h newConfig,
        plugin_reconfigure h newConfig w = Some (tt, w') ->
        readingSets w' = readingSets w /\ nextReadingSet w' = nextReadingSet w)
  /\ (forall h,
        plugin_shutdown h w = Some (tt, w') ->
        readingSets w' = readingSets w /\ nextReadingSet w' = nextReadingSet w).
Proof.
  split; [|split].
  - intros config outHandle output r Hrun.
    assert (Hframe : frames batches (plugin_init config outHandle output))
      by (open_plugin; frame_steps).
    apply Hframe in Hrun. now injection Hrun as ? ?.
  - intros h newConfig Hrun.
    assert (Hframe : frames batches (plugin_reconfigure h newConfig))
      by (open_plugin; frame_steps).
    apply Hframe in Hrun. now injection Hrun as ? ?.
  - intros h Hrun.
    assert (Hframe : frames batches (plugin_shutdown h))
      by (open_plugin; frame_steps).
    apply Hframe in Hrun. now injection Hrun as ? ?.
Qed.

Lemma handles_plugin_ingest h readingSet :
  frames handles (plugin_ingest h readingSet).
Proof. open_plugin. frame_steps. Qed.

Lemma handles_plugin_reconfigure h newConfig :
  frames handles (plugin_reconfigure h newConfig).
Proof.
  open_plugin. frame_steps. apply frames_handles_store_filter.
Qed.

End EntryPointFrames.

(** ** The entry points run on an arbitrary world: their events *)

Ltac fields :=
  cbn [py_live pythonInitialised py_error readingSets nextReadingSet
       filterInfos nextInfo trace
       set_py_live set_pythonInitialised set_py_error set_readingSets
       set_filterInfos add_events].

(** A method call on a handle whose object was just written. *)
Ltac method_step :=
  bind_norm;
  erewrite (bindM_Some (call_filter _ _))
    by (apply call_filter_run; fields; apply lookup_insert_eq);
  cbv beta; fields;
  rewrite ?set_filterInfos_twice, ?insert_insert_eq;
  cbn [handle configCatName fst snd].

Section EntryPointEvents.
Context `{Impl : Python27FilterImpl}.

Lemma plugin_init_trace w config outHandle output :
  exists r w',
    plugin_init config outHandle output w = Some (r, w')
    /\ trace w' = trace w ++ init_events w config.
Proof.
  unfold init_events.
  destruct (py_live w) eqn:Hlive;
    destruct (has_script config) eqn:Hnamed;
    destruct (configure (filter_at_configure config outHandle output))
      as [configured f'] eqn:Hconf;
    destruct configured;
    destruct (pythonInitialised w) eqn:Hflag;
    do 2 eexists.
  all: split;
    [ unfold plugin_init;
      rewrite (bindM_Some _ _ _ _ _ (new_FILTER_INFO_run _ _));
      step_emit;
      bind_norm; rewrite (bindM_Some _ _ _ _ _ (Py_IsInitialized_run _));
      fields; rewrite Hlive; cbn [negb]; cbv iota;
      unfold Py_Initialize;
      repeat first [ step_emit | bind_norm; rewrite bindM_modifyM ];
      autorewrite with world;
      method_step;
      bind_norm;
      erewrite (bindM_Some PyGILState_Ensure)
        by (apply GILEnsure_run; fields; first [exact Hlive | reflexivity]);
      autorewrite with world;
      erewrite (bindM_Some (deref_info _))
        by (apply deref_info_run; fields; apply lookup_insert_eq);
      cbv beta; cbn [handle configCatName];
      step_emit; unfold Py_CLEAR; step_emit;
      method_step;
      rewrite setScriptName_named, Hnamed; cbn [negb]; cbv iota;
      fold (filter_at_configure config outHandle output);
      try (step_emit; method_step; rewrite Hconf;
           cbn [fst snd negb]; cbv iota);
      try method_step;
      try (bind_norm; rewrite (bindM_Some _ _ _ _ _ (getM_run _));
           fields; rewrite ?Hflag; cbv iota;
           try (bind_norm; rewrite bindM_modifyM));
      autorewrite with world;
      unfold PyGILState_Release; step_emit; reflexivity
    | fields; rewrite <- ?app_assoc; reflexivity ].
Qed.

Lemma plugin_shutdown_trace w h info :
  filterInfos w !! h = Some info ->
  py_live w = true ->
  exists w',
    plugin_shutdown h w = Some (tt, w')
    /\ trace w' = trace w ++ shutdown_events w h.
Proof.
  intros Hinfo Hlive. unfold shutdown_events.
  destruct (pythonInitialised w) eqn:Hflag; eexists.
  all: split;
    [ unfold plugin_shutdown;
      rewrite (bindM_Some _ _ _ _ _ (deref_info_run _ _ _ Hinfo));
      rewrite (bindM_Some _ _ _ _ _ (GILEnsure_run _ Hlive));
      autorewrite with world;
      erewrite (bindM_Some (call_filter _ _))
        by (apply call_filter_run; fields; exact Hinfo);
      fields; cbn [handle configCatName fst snd];
      unfold Py_CLEAR; step_emit; method_step; step_emit;
      bind_norm; rewrite (bindM_Some _ _ _ _ _ (getM_run _));
      fields; rewrite Hflag; cbv iota;
      unfold Py_Finalize;
      repeat first [ step_emit | bind_norm; rewrite bindM_modifyM ];
      bind_norm; autorewrite with world;
      unfold delete_FILTER_INFO; fields; rewrite lookup_insert_eq;
      autorewrite with world; reflexivity
    | fields; rewrite <- ?app_assoc; reflexivity ].
Qed.

(** X6. plugin_reconfigure, called on a live handle while the interpreter
    is live, acquires the lock, hands the new configuration to the
    filter's reconfigure method and releases the lock.  What the method
    leaves of the filter object is stored behind the handle, whose
    category name is kept; the boolean the method returns is not looked
    at, so a rejected configuration is not reported by the entry point.
    No other handle, no batch and nothing of the interpreter's lifecycle
    is changed. *)
Theorem X6_reconfigure_updates_only_its_filter
    (w : World) (h : nat) (info : FILTER_INFO) (newConfig : string) :
  filterInfos w !! h = Some info ->
  py_live w = true ->
  exists w',
    plugin_reconfigure h newConfig w = Some (tt, w')
    /\ trace w' = trace w ++ [EvGILEnsure; EvReconfigure newConfig;
                              EvGILRelease]
    /\ filterInfos w'
       = <[h := mkFILTER_INFO (snd (reconfigure newConfig (handle info)))
                              (configCatName info)]> (filterInfos w)
    /\ nextInfo w' = nextInfo w
    /\ readingSets w' = readingSets w
    /\ nextReadingSet w' = nextReadingSet w
    /\ py_live w' = py_live w
    /\ pythonInitialised w' = pythonInitialised w.
Proof.
  intros Hinfo Hlive. eexists. split.
  - unfold plugin_reconfigure.
    rewrite (bindM_Some _ _ _ _ _ (deref_info_run _ _ _ Hinfo)).
    rewrite (bindM_Some _ _ _ _ _ (GILEnsure_run _ Hlive)).
    autorewrite with world. step_emit.
    erewrite (bindM_Some (call_filter _ _))
      by (apply call_filter_run; fields; exact Hinfo).
    fields. unfold PyGILState_Release, emit, modifyM.
    autorewrite with world. reflexivity.
  - fields. rewrite <- ?app_assoc. repeat split; reflexivity.
Qed.

End EntryPointEvents.

(** ** The interpreter across the calls of the host *)

Section InterpreterProperties.
Context `{Impl : Python27FilterImpl}.

Lemma sys_path_host_call c n :
  scans (count_step is_sys_path_insert) n (host_call c)
        (if is_init_call c then S n else n).
Proof. destruct c; simpl; open_plugin; scan_steps. Qed.

Lemma sys_path_host_calls cs : forall n,
  scans (count_step is_sys_path_insert) n (host_calls cs)
        (length (List.filter is_init_call cs) + n).
Proof.
  induction cs as [|c cs IH]; intros n; simpl; [apply scans_retM|].
  eapply scans_bindM; [apply sys_path_host_call|intros _].
  destruct (is_init_call c); simpl.
  - replace (S (length (List.filter is_init_call cs) + n))
      with (length (List.filter is_init_call cs) + S n) by lia.
    apply IH.
  - apply IH.
Qed.

(** X7. Every plugin_init call inserts the filter's scripts directory
    into sys.path once, whatever its outcome (handle or null, script
    named or not, interpreter already live or not), and no entry point
    ever takes an entry out: over any sequence of calls the insertions
    number the plugin_init calls, so that n filters started in one
    process leave n entries. *)
Theorem X7_one_sys_path_entry_per_init
    (cs : list HostCall) (w w' : World) :
  host_calls cs w = Some (tt, w') ->
  exists es,
    trace w' = trace w ++ es
    /\ length (List.filter is_sys_path_insert es)
       = length (List.filter is_init_call cs).
Proof.
  intros Hrun.
  destruct (sys_path_host_calls cs 0 _ _ _ Hrun) as (es & Htr & Hscan).
  exists es. split; [exact Htr|].
  rewrite scan_count_step in Hscan. injection Hscan as Hlen. lia.
Qed.

(** X8. plugin_init calls the filter's configure method exactly when a
    script is named, and then once; with no script named the script is
    never imported, yet the interpreter is still brought up if it was not
    live: the call is defined in every world and initializes the
    interpreter exactly when it finds it not live. *)
Theorem X8_init_configures_only_a_named_script
    (w : World) (config : ConfigCategory) (outHandle output : nat) :
  exists r w' es,
    plugin_init config outHandle output w = Some (r, w')
    /\ trace w' = trace w ++ es
    /\ List.filter is_configure es
       = (if has_script config then [EvConfigure] else [])
    /\ List.filter is_initialize es
       = (if py_live w then [] else [EvPyInitialize])
    /\ py_live w' = true.
Proof.
  destruct (plugin_init_trace w config outHandle output)
    as (r & w' & Hrun & Htr).
  destruct (plugin_init_run w config outHandle output)
    as (w1 & es1 & Hrun1 & _ & _ & _ & Hlive & _).
  rewrite Hrun in Hrun1. injection Hrun1 as _ <-.
  exists r, w', (init_events w config).
  split; [exact Hrun|]. split; [exact Htr|].
  unfold init_events.
  destruct (py_live w); destruct (has_script config);
    repeat split; solve [reflexivity | exact Hlive].
Qed.

Lemma lifecycle_plugin_ingest h readingSet b :
  scans lifecycle_step b (plugin_ingest h readingSet) b.
Proof. open_plugin. scan_steps. Qed.

Lemma lifecycle_plugin_reconfigure h newConfig b :
  scans lifecycle_step b (plugin_reconfigure h newConfig) b.
Proof. open_plugin. scan_steps. Qed.

Lemma lifecycle_sound_quiet {A} (m : M A) w a w' :
  (forall b, scans lifecycle_step b m b) ->
  quiet m ->
  lifecycle_sound w ->
  m w = Some (a, w') ->
  lifecycle_sound w'.
Proof.
  intros Hscan Hquiet [Hs Hf] Hrun.
  destruct (Hscan (py_live w) _ _ _ Hrun) as (es & Htr & Hes).
  destruct (Hquiet _ _ _ Hrun) as (Hl & Hfl & _).
  split.
  - now rewrite Htr, scan_app, Hs, Hl.
  - now rewrite Hl, Hfl.
Qed.

Lemma lifecycle_sound_host_call c w w' :
  lifecycle_sound w ->
  host_call c w = Some (tt, w') ->
  lifecycle_sound w'.
Proof.
  intros Hsound Hrun. destruct c as [config o u|h p|h s|h|rs].
  - destruct Hsound as [Hs Hf].
    destruct (plugin_init_trace w config o u) as (r & w1 & Hinit & Htr).
    destruct (plugin_init_run w config o u)
      as (w2 & es & Hinit2 & _ & _ & _ & Hl & _).
    rewrite Hinit in Hinit2. injection Hinit2 as _ <-.
    simpl in Hrun. rewrite (bindM_Some _ _ _ _ _ Hinit) in Hrun.
    injection Hrun as <-. split; [|intros _; exact Hl].
    rewrite Htr, scan_app, Hs, Hl. unfold init_events.
    destruct (py_live w); destruct (has_script config); reflexivity.
  - eapply lifecycle_sound_quiet; [| |exact Hsound|exact Hrun].
    + apply lifecycle_plugin_ingest.
    + apply quiet_plugin_ingest.
  - eapply lifecycle_sound_quiet; [| |exact Hsound|exact Hrun].
    + apply lifecycle_plugin_reconfigure.
    + apply quiet_plugin_reconfigure.
  - destruct Hsound as [Hs Hf]. simpl in Hrun.
    destruct (plugin_shutdown_defined _ _ _ _ Hrun) as [[info Hinfo] Hlive].
    destruct (plugin_shutdown_trace w h info Hinfo Hlive)
      as (w1 & Hsd & Htr).
    destruct (plugin_shutdown_run w h info Hinfo Hlive)
      as (w2 & es & Hsd2 & _ & _ & Hl & Hfl & _).
    rewrite Hsd in Hsd2. injection Hsd2 as <-.
    rewrite Hsd in Hrun. injection Hrun as <-.
    split; [|rewrite Hfl; discriminate].
    rewrite Htr, scan_app, Hs, Hl, Hlive. unfold shutdown_events.
    destruct (pythonInitialised w); reflexivity.
  - eapply lifecycle_sound_quiet; [| |exact Hsound|exact Hrun].
    + intros b. open_plugin. scan_steps.
    + apply quiet_bindM; [apply quiet_new_ReadingSet|intros; apply quiet_retM].
Qed.

Lemma lifecycle_sound_host_calls cs : forall w w',
  lifecycle_sound w ->
  host_calls cs w = Some (tt, w') ->
  lifecycle_sound w'.
Proof.
  induction cs as [|c cs IH]; intros w w' Hsound Hrun; simpl in Hrun.
  - now injection Hrun as <-.
  - unfold bindM in Hrun.
    destruct (host_call c w) as [[[] w1]|] eqn:Hc; [|discriminate].
    eapply IH; [|exact Hrun]. eapply lifecycle_sound_host_call; eassumption.
Qed.

(** X9. In every world the host can reach from the start of the process,
    the interpreter's lifecycle is well bracketed: the plugin has called
    Py_Initialize only while no interpreter was live and Py_Finalize only
    while one was (never twice in a row, never on a dead interpreter),
    the interpreter is live exactly if the last of these calls was
    Py_Initialize, and the flag pythonInitialised is set only while the
    interpreter is live. *)
Theorem X9_lifecycle_well_bracketed (cs : list HostCall) (w : World) :
  host_calls cs initial_world = Some (tt, w) ->
  scan lifecycle_step false (trace w) = Some (py_live w)
  /\ (pythonInitialised w = true -> py_live w = true).
Proof.
  intros Hrun. eapply (lifecycle_sound_host_calls cs initial_world w);
    [|exact Hrun].
  split; [reflexivity|discriminate].
Qed.

End InterpreterProperties.

(** ** Instances come and go *)

Section InstanceProperties.
Context `{Impl : Python27FilterImpl}.

(** X10. Starting a filter and shutting it down again gives the store of
    filter objects back as it was: plugin_init on a configuration it does
    not reject returns the address it allocated, plugin_shutdown of that
    address is defined and frees it, and no batch is touched.  The flag
    pythonInitialised ends clear; the interpreter ends live only if it
    was live before with the flag clear, so that a filter started in a
    process whose interpreter another instance initialized finalizes that
    interpreter when it is shut down. *)
Theorem X10_init_then_shutdown_restores_the_store
    (w : World) (config : ConfigCategory) (outHandle output : nat) :
  filterInfos w !! nextInfo w = None ->
  init_aborts config outHandle output = false ->
  exists w1 w2,
    plugin_init config outHandle output w = Some (Some (nextInfo w), w1)
    /\ plugin_shutdown (nextInfo w) w1 = Some (tt, w2)
    /\ filterInfos w2 = filterInfos w
    /\ readingSets w2 = readingSets w
    /\ pythonInitialised w2 = false
    /\ py_live w2 = py_live w && negb (pythonInitialised w).
Proof.
  intros Hfresh Hok.
  destruct (plugin_init_run w config outHandle output)
    as (w1 & es1 & Hinit & _ & _ & _ & Hl1 & Hf1 & Hinfos1 & _ & Hb1 & _).
  rewrite Hok in Hinit, Hf1.
  assert (Hh : filterInfos w1 !! nextInfo w
               = Some (mkFILTER_INFO
                         (filter_after_init config outHandle output)
                         (getName config)))
    by (rewrite Hinfos1; apply lookup_insert_eq).
  destruct (plugin_shutdown_run w1 (nextInfo w) _ Hh Hl1)
    as (w2 & es2 & Hsd & _ & _ & Hl2 & Hf2 & Hinfos2 & _ & Hb2 & _).
  exists w1, w2. split; [exact Hinit|]. split; [exact Hsd|].
  split; [|split; [congruence|split; [exact Hf2|]]].
  - rewrite Hinfos2, Hinfos1, delete_insert_eq. now apply delete_id.
  - rewrite Hl2, Hf1. now destruct (py_live w).
Qed.

Lemma handle_survives_host_call k c w w' :
  c <> CallShutdown k ->
  k ∈ handles w ->
  host_call c w = Some (tt, w') ->
  k ∈ handles w'.
Proof.
  intros Hc Hk Hrun. destruct c as [config o u|h p|h s|h|rs].
  - destruct (plugin_init_run w config o u)
      as (w1 & es & Hinit & _ & _ & _ & _ & _ & Hinfos & _).
    simpl in Hrun. rewrite (bindM_Some _ _ _ _ _ Hinit) in Hrun.
    injection Hrun as <-. unfold handles in *.
    rewrite Hinfos, dom_insert_L. set_unfold. now right.
  - now rewrite (handles_plugin_ingest _ _ _ _ _ Hrun).
  - now rewrite (handles_plugin_reconfigure _ _ _ _ _ Hrun).
  - simpl in Hrun.
    destruct (plugin_shutdown_defined _ _ _ _ Hrun) as [[info Hinfo] Hlive].
    destruct (plugin_shutdown_run w h info Hinfo Hlive)
      as (w1 & es & Hsd & _ & _ & _ & _ & Hinfos & _).
    rewrite Hsd in Hrun. injection Hrun as <-. unfold handles in *.
    rewrite Hinfos, dom_delete_L. set_unfold. split; [exact Hk|].
    intros ->. now apply Hc.
  - assert (Hframe : frames handles (host_call (HostNewReadingSet rs)))
      by (simpl; frame_steps).
    now rewrite (Hframe _ _ _ Hrun).
Qed.

Lemma handle_survives_host_calls k cs : forall w w',
  (forall c, In c cs -> c <> CallShutdown k) ->
  k ∈ handles w ->
  host_calls cs w = Some (tt, w') ->
  k ∈ handles w'.
Proof.
  induction cs as [|c cs IH]; intros w w' Hcs Hk Hrun; simpl in Hrun.
  - now injection Hrun as <-.
  - unfold bindM in Hrun.
    destruct (host_call c w) as [[[] w1]|] eqn:Hc; [|discriminate].
    eapply IH; [|eapply (handle_survives_host_call k c w w1)|exact Hrun];
      eauto using in_eq, in_cons.
Qed.

(** X11. When plugin_init returns null it has not freed what it
    allocated: the FILTER_INFO and its filter stay allocated, and since
    the host was handed no address for them they stay so through every
    later sequence of entry-point calls in which that address is not shut
    down. *)
Theorem X11_rejected_init_leaks_its_filter
    (w : World) (config : ConfigCategory) (outHandle output : nat) :
  init_aborts config outHandle output = true ->
  exists w',
    plugin_init config outHandle output w = Some (None, w')
    /\ nextInfo w ∈ handles w'
    /\ forall cs w'',
         (forall c, In c cs -> c <> CallShutdown (nextInfo w)) ->
         host_calls cs w' = Some (tt, w'') ->
         nextInfo w ∈ handles w''.
Proof.
  intros Habort.
  destruct (plugin_init_run w config outHandle output)
    as (w' & es & Hinit & _ & _ & _ & _ & _ & Hinfos & _).
  rewrite Habort in Hinit.
  assert (Hk : nextInfo w ∈ handles w').
  { unfold handles. rewrite Hinfos, dom_insert_L. set_unfold. now left. }
  exists w'. split; [exact Hinit|]. split; [exact Hk|].
  intros cs w'' Hcs Hrun.
  now apply (handle_survives_host_calls _ cs w' w'').
Qed.

End InstanceProperties.

(** ** More of plugin_ingest *)

Section IngestOrder.
Context `{Impl : Python27FilterImpl}.

Lemma sink_depth_track_events service readings s :
  scan sink_depth_step s (track_events service readings) = Some s.
Proof.
  destruct s as [depth noted].
  induction readings as [|r rs IH]; simpl; [reflexivity|exact IH].
Qed.

(** The scanner is run over a trace given in pieces: over a literal
    piece by evaluation, over the events of a tracking loop by the lemma
    above. *)
Ltac scan_sink :=
  repeat first
    [ rewrite scan_app
    | rewrite sink_depth_track_events
    | match goal with
      | |- context [scan sink_depth_step ?s (?e :: ?t)] =>
          let v := eval lazy in (scan sink_depth_step s (e :: t)) in
          change (scan sink_depth_step s (e :: t)) with v
      end
    | progress cbv beta iota ].

(** X12. The downstream stage is called while the calling thread holds
    the global interpreter lock on one path only: when the input cannot
    be marshalled, plugin_ingest passes the batch on before it releases
    the lock; on the disabled path the lock was never taken, and on every
    other path it is released before the batch is passed on.  On every
    path the lock is released when the call returns. *)
Theorem X12_sink_called_inside_lock_only_on_marshal_failure
    (w : World) (h readingSet : nat) (info : FILTER_INFO)
    (readings : list Reading) :
  filterInfos w !! h = Some info ->
  readingSets w !! readingSet = Some readings ->
  (isEnabled (handle info) = true -> py_live w = true) ->
  exists es w',
    plugin_ingest h readingSet w = Some (tt, w')
    /\ trace w' = trace w ++ es
    /\ scan sink_depth_step (0, []) es
       = Some (0, [match ingest_path (handle info) readings with
                   | PathMarshalFailure => 1
                   | _ => 0
                   end]).
Proof.
  intros Hinfo Hbatch Hlive. unfold ingest_path.
  destruct (isEnabled (handle info)) eqn:Hen; cbn [negb]; cbv iota.
  - specialize (Hlive eq_refl).
    destruct (createReadingsList (handle info) readings)
      as [readingsList|] eqn:Hlist;
      [destruct (call_result (m_pFunc (handle info)) readingsList)
         as [text|ret] eqn:Hcall;
       [|destruct (getFilteredReadings (handle info) ret)
           as [newReadings|] eqn:Hback]|].
    all: do 2 eexists;
      (split; [first [ eapply ingest_marshal_failure; eassumption
                     | eapply ingest_call_failure; eassumption
                     | eapply ingest_unmarshal_failure; eassumption
                     | eapply ingest_success; eassumption ]|]).
    all: cbn [trace set_py_error set_readingSets add_events];
      (split; [reflexivity|]).
    all: scan_sink; reflexivity.
  - do 2 eexists. split; [eapply ingest_disabled; eassumption|].
    cbn [trace add_events]. split; reflexivity.
Qed.

(** X13. A script that returns an empty list does not stop the batch
    from going on: plugin_ingest deletes the input batch and calls the
    output stream, once, with a new batch that holds no reading; the only
    tuples recorded are those of the input readings. *)
Theorem X13_empty_result_is_passed_on_as_an_empty_batch
    (w : World) (h readingSet : nat) (info : FILTER_INFO)
    (readings : list Reading) (readingsList ret : PyObject) :
  filterInfos w !! h = Some info ->
  isEnabled (handle info) = true ->
  py_live w = true ->
  readingSets w !! readingSet = Some readings ->
  createReadingsList (handle info) readings = Some readingsList ->
  call_result (m_pFunc (handle info)) readingsList = inr ret ->
  getFilteredReadings (handle info) ret = Some [] ->
  exists es w',
    plugin_ingest h readingSet w = Some (tt, w')
    /\ trace w' = trace w ++ es
    /\ outputs es = [(nextReadingSet w, Some [])]
    /\ List.filter is_delete es = [EvDeleteReadingSet readingSet]
    /\ tracked es = tuples_of (configCatName info) readings.
Proof.
  intros Hinfo Hon Hlive Hbatch Hlist Hret Hback.
  do 2 eexists. split.
  - apply (ingest_success w h readingSet info Hinfo readings
             Hon Hlive Hbatch readingsList ret [] Hlist Hret Hback).
  - cbn [trace set_readingSets add_events]. split; [reflexivity|].
    rewrite !outputs_app, !outputs_track_events.
    rewrite !tracked_app, !tracked_track_events.
    rewrite !List.filter_app, !filter_track_events by reflexivity.
    cbn. repeat split; rewrite ?app_nil_r; reflexivity.
Qed.

End IngestOrder.

(** ** Handles never alias *)

Lemma handle_space_store_filter h f : frames handle_space (store_filter h f).
Proof.
  intros w a w' Hrun. unfold handle_space.
  rewrite (frames_handles_store_filter h f _ _ _ Hrun).
  unfold store_filter in Hrun.
  destruct (filterInfos w !! h); [|discriminate].
  now injection Hrun as _ <-.
Qed.

Section HandleProperties.
Context `{Impl : Python27FilterImpl}.

Lemma handles_fresh_host_call c w w' :
  handles_fresh w ->
  host_call c w = Some (tt, w') ->
  handles_fresh w'.
Proof.
  intros Hfresh Hrun. destruct c as [config o u|h p|h s|h|rs].
  - destruct (plugin_init_run w config o u)
      as (w1 & es & Hinit & _ & _ & _ & _ & _ & Hinfos & Hnext & _).
    simpl in Hrun. rewrite (bindM_Some _ _ _ _ _ Hinit) in Hrun.
    injection Hrun as <-. intros k Hk. unfold handles.
    rewrite Hinfos, dom_insert_L. rewrite Hnext in Hk.
    specialize (Hfresh k ltac:(lia)). unfold handles in Hfresh.
    set_unfold. intros [->|Hin]; [lia|contradiction].
  - apply instances_plugin_ingest in Hrun.
    unfold instances_and_lifecycle in Hrun.
    injection Hrun as Hinfos Hnext _ _.
    intros k Hk. unfold handles. rewrite Hinfos. rewrite Hnext in Hk.
    now apply Hfresh.
  - assert (Hframe : frames handle_space (plugin_reconfigure h s)).
    { open_plugin. frame_steps. apply handle_space_store_filter. }
    apply Hframe in Hrun. unfold handle_space in Hrun.
    injection Hrun as Hh Hnext. intros k Hk. rewrite Hh.
    rewrite Hnext in Hk. now apply Hfresh.
  - simpl in Hrun.
    destruct (plugin_shutdown_defined _ _ _ _ Hrun) as [[info Hinfo] Hlive].
    destruct (plugin_shutdown_run w h info Hinfo Hlive)
      as (w1 & es & Hsd & _ & _ & _ & _ & Hinfos & Hnext & _).
    rewrite Hsd in Hrun. injection Hrun as <-. intros k Hk. unfold handles.
    rewrite Hinfos, dom_delete_L. rewrite Hnext in Hk.
    specialize (Hfresh k Hk). unfold handles in Hfresh. set_unfold. tauto.
  - assert (Hframe : frames handle_space (host_call (HostNewReadingSet rs)))
      by (simpl; frame_steps).
    apply Hframe in Hrun. unfold handle_space in Hrun.
    injection Hrun as Hh Hnext. intros k Hk. rewrite Hh.
    rewrite Hnext in Hk. now apply Hfresh.
Qed.

Lemma handles_fresh_host_calls cs : forall w w',
  handles_fresh w ->
  host_calls cs w = Some (tt, w') ->
  handles_fresh w'.
Proof.
  induction cs as [|c cs IH]; intros w w' Hfresh Hrun; simpl in Hrun.
  - now injection Hrun as <-.
  - unfold bindM in Hrun.
    destruct (host_call c w) as [[[] w1]|] eqn:Hc; [|discriminate].
    eapply IH; [|exact Hrun]. eapply handles_fresh_host_call; eassumption.
Qed.

(** X14. Instances never alias: in every world the host can reach from
    the start of the process, the address plugin_init is about to
    allocate names no live filter object, so the handle a plugin_init
    call returns is different from every handle that is live, and the call
    leaves every live filter object as it was. *)
Theorem X14_init_allocates_an_unused_handle
    (cs : list HostCall) (w : World)
    (config : ConfigCategory) (outHandle output : nat) :
  host_calls cs initial_world = Some (tt, w) ->
  filterInfos w !! nextInfo w = None
  /\ exists r w',
       plugin_init config outHandle output w = Some (r, w')
       /\ (r = None \/ r = Some (nextInfo w))
       /\ forall k info,
            filterInfos w !! k = Some info ->
            k <> nextInfo w /\ filterInfos w' !! k = Some info.
Proof.
  intros Hrun.
  assert (Hfresh : handles_fresh w).
  { eapply handles_fresh_host_calls; [|exact Hrun].
    intros k _. unfold handles. cbn [filterInfos initial_world].
    rewrite dom_empty_L. apply not_elem_of_empty. }
  assert (Hnone : filterInfos w !! nextInfo w = None).
  { apply not_elem_of_dom. apply Hfresh. lia. }
  split; [exact Hnone|].
  destruct (plugin_init_run w config outHandle output)
    as (w' & es & Hinit & _ & _ & _ & _ & _ & Hinfos & _).
  eexists _, w'. split; [exact Hinit|]. split.
  - destruct (init_aborts config outHandle output); auto.
  - intros k info Hk.
    assert (Hne : k <> nextInfo w) by congruence.
    split; [exact Hne|]. rewrite Hinfos, lookup_insert_ne; auto.
Qed.

End HandleProperties.

(** ** The added properties on concrete inputs *)

Section SessionRuns.
Import Demo Session.
#[local] Existing Instance demo_impl.

Example session_runs : host_calls calls initial_world = Some (tt, w_end).
Proof. vm_compute. reflexivity. Qed.

(** X1 on the session: one shutdown, one acquisition left open. *)
Lemma X1_witness :
  exists es,
    trace w_end = trace initial_world ++ es
    /\ forall depth,
         scan gil_step depth es
         = Some (length (List.filter is_shutdown_call calls) + depth).
Proof.
  apply (X1_gil_acquired_around_every_interpreter_touch
           calls initial_world w_end).
  vm_compute. reflexivity.
Defined.

(** X2 on the session: one ingest call, one output call. *)
Lemma X2_witness :
  exists es,
    trace w_end = trace initial_world ++ es
    /\ length (outputs es) = length (List.filter is_ingest_call calls).
Proof.
  apply (X2_one_output_per_ingest_call calls initial_world w_end).
  vm_compute. reflexivity.
Defined.

(** X3 at the start of a second filter beside a running one. *)
Lemma X3_witness :
  exists w',
    host_call (CallInit (config_of true "identity") 8 9) w_identity
    = Some (tt, w')
    /\ exists es,
         trace w' = trace w_identity ++ es
         /\ tracked es = [] /\ outputs es = [].
Proof.
  eexists. split; [vm_compute; reflexivity|].
  apply (X3_only_ingest_records_asset_tuples
           (CallInit (config_of true "identity") 8 9) w_identity).
  - reflexivity.
  - vm_compute. reflexivity.
Defined.

(** X4 at an ingest that replaces the batch. *)
Lemma X4_witness :
  exists w',
    plugin_ingest 0 0 w_identity = Some (tt, w')
    /\ filterInfos w' = filterInfos w_identity
    /\ nextInfo w' = nextInfo w_identity
    /\ py_live w' = py_live w_identity
    /\ pythonInitialised w' = pythonInitialised w_identity.
Proof.
  eexists. split; [vm_compute; reflexivity|].
  apply (X4_ingest_leaves_filters_and_lifecycle 0 0 w_identity).
  vm_compute. reflexivity.
Defined.

(** X6 at the running filter. *)
Lemma X6_witness :
  exists w',
    plugin_reconfigure 0 "{}" w_identity = Some (tt, w')
    /\ trace w' = trace w_identity ++ [EvGILEnsure; EvReconfigure "{}";
                                       EvGILRelease]
    /\ filterInfos w'
       = <[0 := mkFILTER_INFO
                  (snd (reconfigure "{}" (handle (info_at w_identity 0))))
                  (configCatName (info_at w_identity 0))]>
           (filterInfos w_identity)
    /\ nextInfo w' = nextInfo w_identity
    /\ readingSets w' = readingSets w_identity
    /\ nextReadingSet w' = nextReadingSet w_identity
    /\ py_live w' = py_live w_identity
    /\ pythonInitialised w' = pythonInitialised w_identity.
Proof.
  apply (X6_reconfigure_updates_only_its_filter
           w_identity 0 (info_at w_identity 0) "{}");
    vm_compute; reflexivity.
Defined.

(** X7 on the session: two filters started, two entries in sys.path. *)
Lemma X7_witness :
  exists es,
    trace w_end = trace initial_world ++ es
    /\ length (List.filter is_sys_path_insert es)
       = length (List.filter is_init_call calls).
Proof.
  apply (X7_one_sys_path_entry_per_init calls initial_world w_end).
  vm_compute. reflexivity.
Defined.

(** X9 on the session: the second filter's shutdown finalized the
    interpreter the first had initialized. *)
Lemma X9_witness :
  scan lifecycle_step false (trace w_end) = Some (py_live w_end)
  /\ (pythonInitialised w_end = true -> py_live w_end = true).
Proof.
  apply (X9_lifecycle_well_bracketed calls w_end).
  vm_compute. reflexivity.
Defined.

(** X10 at the start of the process. *)
Lemma X10_witness :
  exists w1 w2,
    plugin_init (config_of true "identity") 7 9 initial_world
    = Some (Some (nextInfo initial_world), w1)
    /\ plugin_shutdown (nextInfo initial_world) w1 = Some (tt, w2)
    /\ filterInfos w2 = filterInfos initial_world
    /\ readingSets w2 = readingSets initial_world
    /\ pythonInitialised w2 = false
    /\ py_live w2
       = py_live initial_world && negb (pythonInitialised initial_world).
Proof.
  apply (X10_init_then_shutdown_restores_the_store
           initial_world (config_of true "identity") 7 9).
  - reflexivity.
  - vm_compute. reflexivity.
Defined.

(** X11 with the script that cannot be bound. *)
Lemma X11_witness :
  exists w',
    plugin_init (config_of true "broken") 7 9 initial_world = Some (None, w')
    /\ nextInfo initial_world ∈ handles w'
    /\ forall cs w'',
         (forall c, In c cs -> c <> CallShutdown (nextInfo initial_world)) ->
         host_calls cs w' = Some (tt, w'') ->
         nextInfo initial_world ∈ handles w''.
Proof.
  apply (X11_rejected_init_leaks_its_filter
           initial_world (config_of true "broken") 7 9).
  vm_compute. reflexivity.
Defined.

(** X12 at a batch that cannot be marshalled: the sink is called at
    depth one. *)
Lemma X12_witness :
  exists es w',
    plugin_ingest 0 0 w_nested = Some (tt, w')
    /\ trace w' = trace w_nested ++ es
    /\ scan sink_depth_step (0, []) es = Some (0, [1]).
Proof.
  exact (X12_sink_called_inside_lock_only_on_marshal_failure
           w_nested 0 0 (info_at w_nested 0) [sensorA; nested]
           eq_refl eq_refl (fun _ => eq_refl)).
Defined.

(** X13 at the script that drops the only reading. *)
Lemma X13_witness :
  exists es w',
    plugin_ingest 0 0 w_drop_all = Some (tt, w')
    /\ trace w' = trace w_drop_all ++ es
    /\ outputs es = [(1, Some [])]
    /\ List.filter is_delete es = [EvDeleteReadingSet 0]
    /\ tracked es = tuples_of "py27" [sensorA].
Proof.
  eapply (X13_empty_result_is_passed_on_as_an_empty_batch
            w_drop_all 0 0 (info_at w_drop_all 0) [sensorA]);
    vm_compute; reflexivity.
Defined.

(** X14 at the end of the session: handle 2 is next, and unused. *)
Lemma X14_witness :
  filterInfos w_end !! nextInfo w_end = None
  /\ exists r w',
       plugin_init (config_of true "identity") 7 9 w_end = Some (r, w')
       /\ (r = None \/ r = Some (nextInfo w_end))
       /\ forall k info,
            filterInfos w_end !! k = Some info ->
            k <> nextInfo w_end /\ filterInfos w' !! k = Some info.
Proof.
  apply (X14_init_allocates_an_unused_handle calls w_end).
  vm_compute. reflexivity.
Defined.

End SessionRuns.
